(** * The driver-plugin harness of go-plugin-hashi-exampe

    A shallow embedding of the two [main.go] programs of the repository: the
    plain launcher (SetConfig, then StartTask) and the harness that also builds
    an allocation directory, a task environment and a log monitor before it
    starts the task ([MkAllocDir], [SetEnvvars]).

    Go packages are Rocq modules ([drivers], [structs], [allocdir], ...), Go
    structs are records, [map[string]string] is a [gmap string string] and a
    nil-able pointer or map is an [option].  Calls that leave the process (the
    plugin RPCs, the file system, the log monitor) are events of a trace; what
    they return is read from a [World]. *)

From Stdlib Require Import ZArith.
From stdpp Require Import base option list gmap strings fin_maps.

Local Open Scope Z_scope.

(** Go's [error]: [None] is the nil error. *)
Definition error : Type := string.

(* ===================================================================== *)
(** ** Data model: the structs of the packages the harness uses          *)
(* ===================================================================== *)

Module structs.
Record AllocatedMemoryResources := { MemoryMB : Z }.
Record AllocatedCpuResources := { CpuShares : Z }.
Record AllocatedTaskResources := {
  Memory : AllocatedMemoryResources;
  Cpu : AllocatedCpuResources
}.
(** The fields of [structs.Task] that [MkAllocDir] fills in. *)
Record Task := {
  Name : string;
  Env : option (gmap string string)
}.
(** [AllocatedTasks] is [alloc.AllocatedResources.Tasks]. *)
Record Allocation := {
  AllocatedTasks : gmap string (option AllocatedTaskResources)
}.
Record Node := { ID : string }.
End structs.

Module docker.
(** [docker.TaskConfig], the fields [newTaskConfig] sets. *)
Record TaskConfig := {
  Image : string;
  ImagePullTimeout : string;
  LoadImage : string;
  Command : string;
  Args : list string
}.
End docker.

Module drivers.
Inductive FSIsolation := FSIsolationNone | FSIsolationChroot | FSIsolationImage.

#[global] Instance FSIsolation_eq_dec : EqDecision FSIsolation.
Proof. solve_decision. Defined.

Record LinuxResources := { CPUShares : Z; MemoryLimitBytes : Z }.
Record Resources := {
  NomadResources : option structs.AllocatedTaskResources;
  LinuxResources_ : option LinuxResources
}.
Record Capabilities := { FSIsolation_ : FSIsolation }.
Record TaskHandle := { State : string }.

(** [drivers.TaskConfig]: the fields the two programs read or write.
    [rawDriverConfig] is what [EncodeConcreteDriverConfig] stores. *)
Record TaskConfig := {
  ID : string;
  Name : string;
  AllocID : string;
  Resources_ : option Resources;
  Env : option (gmap string string);
  AllocDir : string;
  StdoutPath : string;
  StderrPath : string;
  rawDriverConfig : list Byte.byte
}.
End drivers.

Module allocdir.
Record AllocDir := { AllocDir_ : string }.
Record TaskDir := {
  Dir : string;
  SharedAllocDir : string;
  LocalDir : string;
  SecretsDir : string;
  LogDir : string
}.
Definition NewAllocDir (dir : string) : AllocDir := {| AllocDir_ := dir |}.
End allocdir.

Module config.
Record Config := { Options : gmap string string }.
End config.

Module logmon.
Record LogConfig := {
  LogDir : string;
  StdoutLogFile : string;
  StderrLogFile : string;
  StdoutFifo : string;
  StderrFifo : string;
  MaxFiles : Z;
  MaxFileSizeMB : Z
}.
End logmon.

Module taskenv.
(** Modelled from the spec: [taskenv.Builder] is a type of Nomad's client
    library, whose source is not in this repository.  The spec (4.3) says of
    its setters that [SetClientTaskRoot], [SetClientSharedAllocDir],
    [SetClientTaskLocalDir] and [SetClientTaskSecretsDir] record the real
    on-disk paths, that [SetAllocDir], [SetTaskLocalDir] and [SetSecretsDir]
    record the paths as the task will see them, and that [SetHostEnvvars]
    copies the current host environment into the builder, excluding any
    variable name matching the denylist (case-sensitive exact match).  The
    builder is the record of what was recorded; the Go setters update it in
    place, here they return the updated record. *)
Record Builder := {
  node : structs.Node;
  alloc : structs.Allocation;
  task : structs.Task;
  region : string;
  clientTaskRoot : string;
  clientSharedAllocDir : string;
  clientTaskLocalDir : string;
  clientTaskSecretsDir : string;
  allocDir : string;
  localDir : string;
  secretsDir : string;
  hostEnv : gmap string string
}.

Definition NewBuilder (n : structs.Node) (a : structs.Allocation)
    (t : structs.Task) (r : string) : Builder :=
  {| node := n; alloc := a; task := t; region := r;
     clientTaskRoot := ""; clientSharedAllocDir := "";
     clientTaskLocalDir := ""; clientTaskSecretsDir := "";
     allocDir := ""; localDir := ""; secretsDir := ""; hostEnv := ∅ |}.

Definition SetClientTaskRoot (dir : string) (b : Builder) : Builder :=
  {| node := node b; alloc := alloc b; task := task b; region := region b;
     clientTaskRoot := dir;
     clientSharedAllocDir := clientSharedAllocDir b;
     clientTaskLocalDir := clientTaskLocalDir b;
     clientTaskSecretsDir := clientTaskSecretsDir b;
     allocDir := allocDir b; localDir := localDir b;
     secretsDir := secretsDir b; hostEnv := hostEnv b |}.

Definition SetClientSharedAllocDir (dir : string) (b : Builder) : Builder :=
  {| node := node b; alloc := alloc b; task := task b; region := region b;
     clientTaskRoot := clientTaskRoot b;
     clientSharedAllocDir := dir;
     clientTaskLocalDir := clientTaskLocalDir b;
     clientTaskSecretsDir := clientTaskSecretsDir b;
     allocDir := allocDir b; localDir := localDir b;
     secretsDir := secretsDir b; hostEnv := hostEnv b |}.

Definition SetClientTaskLocalDir (dir : string) (b : Builder) : Builder :=
  {| node := node b; alloc := alloc b; task := task b; region := region b;
     clientTaskRoot := clientTaskRoot b;
     clientSharedAllocDir := clientSharedAllocDir b;
     clientTaskLocalDir := dir;
     clientTaskSecretsDir := clientTaskSecretsDir b;
     allocDir := allocDir b; localDir := localDir b;
     secretsDir := secretsDir b; hostEnv := hostEnv b |}.

Definition SetClientTaskSecretsDir (dir : string) (b : Builder) : Builder :=
  {| node := node b; alloc := alloc b; task := task b; region := region b;
     clientTaskRoot := clientTaskRoot b;
     clientSharedAllocDir := clientSharedAllocDir b;
     clientTaskLocalDir := clientTaskLocalDir b;
     clientTaskSecretsDir := dir;
     allocDir := allocDir b; localDir := localDir b;
     secretsDir := secretsDir b; hostEnv := hostEnv b |}.

Definition SetAllocDir (dir : string) (b : Builder) : Builder :=
  {| node := node b; alloc := alloc b; task := task b; region := region b;
     clientTaskRoot := clientTaskRoot b;
     clientSharedAllocDir := clientSharedAllocDir b;
     clientTaskLocalDir := clientTaskLocalDir b;
     clientTaskSecretsDir := clientTaskSecretsDir b;
     allocDir := dir; localDir := localDir b;
     secretsDir := secretsDir b; hostEnv := hostEnv b |}.

Definition SetTaskLocalDir (dir : string) (b : Builder) : Builder :=
  {| node := node b; alloc := alloc b; task := task b; region := region b;
     clientTaskRoot := clientTaskRoot b;
     clientSharedAllocDir := clientSharedAllocDir b;
     clientTaskLocalDir := clientTaskLocalDir b;
     clientTaskSecretsDir := clientTaskSecretsDir b;
     allocDir := allocDir b; localDir := dir;
     secretsDir := secretsDir b; hostEnv := hostEnv b |}.

Definition SetSecretsDir (dir : string) (b : Builder) : Builder :=
  {| node := node b; alloc := alloc b; task := task b; region := region b;
     clientTaskRoot := clientTaskRoot b;
     clientSharedAllocDir := clientSharedAllocDir b;
     clientTaskLocalDir := clientTaskLocalDir b;
     clientTaskSecretsDir := clientTaskSecretsDir b;
     allocDir := allocDir b; localDir := localDir b;
     secretsDir := dir; hostEnv := hostEnv b |}.

(** The host variables that pass the denylist [names]. *)
Definition filterHostEnv (environ : gmap string string)
    (names : list string) : gmap string string :=
  filter (λ kv, kv.1 ∉ names) environ.

(** [environ] is the process environment ([os.Environ]) the library reads. *)
Definition SetHostEnvvars (environ : gmap string string)
    (names : list string) (b : Builder) : Builder :=
  {| node := node b; alloc := alloc b; task := task b; region := region b;
     clientTaskRoot := clientTaskRoot b;
     clientSharedAllocDir := clientSharedAllocDir b;
     clientTaskLocalDir := clientTaskLocalDir b;
     clientTaskSecretsDir := clientTaskSecretsDir b;
     allocDir := allocDir b; localDir := localDir b;
     secretsDir := secretsDir b;
     hostEnv := filterHostEnv environ names |}.
End taskenv.

(* ===================================================================== *)
(** ** The libraries behind the harness                                  *)
(* ===================================================================== *)

(** Pure functions and constants of the Go standard library and of Nomad's
    packages that the harness calls.  Their source is not part of the
    repository, so the development is parametric in them: every theorem of a
    section with [Context `{Lib}] holds whatever they compute. *)
Class Lib := {
  (** [allocdir.SharedAllocContainerPath] and its two siblings *)
  SharedAllocContainerPath : string;
  TaskLocalContainerPath : string;
  TaskSecretsContainerPath : string;
  (** [allocDir.NewTaskDir(name)] *)
  NewTaskDir : allocdir.AllocDir → string → allocdir.TaskDir;
  (** [config.DefaultEnvDenylist], [config.DefaultConfig()] and
      [conf.ReadAlternativeDefault(ids, default)] *)
  DefaultEnvDenylist : string;
  DefaultConfig : config.Config;
  ReadAlternativeDefault : config.Config → list string → string → string;
  (** [strings.Split(s, sep)] and [filepath.Join(elem...)] *)
  strings_Split : string → string → list string;
  filepath_Join : list string → string;
  (** [mock.Node()] and [mock.Alloc()] *)
  mock_Node : structs.Node;
  mock_Alloc : structs.Allocation;
  (** [taskBuilder.Build().Map()]: the built environment mapping *)
  Build_Map : taskenv.Builder → gmap string string;
  (** the bytes [EncodeConcreteDriverConfig] stores, [None] when it fails *)
  encodeDriverConfig : docker.TaskConfig → option (list Byte.byte)
}.

(* ===================================================================== *)
(** ** SetEnvvars                                                         *)
(* ===================================================================== *)

Section SetEnvvars.
Context `{Lib}.

(** The denylist [SetEnvvars] configures from [conf]. *)
Definition envDenylist (conf : config.Config) : list string :=
  strings_Split
    (ReadAlternativeDefault conf ["env.denylist"; "env.blacklist"]
       DefaultEnvDenylist)
    ",".

(** [SetEnvvars(envBuilder, fsi, taskDir, conf)]; [environ] is the host
    environment at the time of the call. *)
Definition SetEnvvars (environ : gmap string string)
    (envBuilder : taskenv.Builder) (fsi : drivers.FSIsolation)
    (taskDir : allocdir.TaskDir) (conf : config.Config) : taskenv.Builder :=
  let b := taskenv.SetClientTaskRoot (allocdir.Dir taskDir) envBuilder in
  let b := taskenv.SetClientSharedAllocDir (allocdir.SharedAllocDir taskDir) b in
  let b := taskenv.SetClientTaskLocalDir (allocdir.LocalDir taskDir) b in
  let b := taskenv.SetClientTaskSecretsDir (allocdir.SecretsDir taskDir) b in
  let b :=
    match fsi with
    | drivers.FSIsolationNone =>
        let b := taskenv.SetAllocDir (allocdir.SharedAllocDir taskDir) b in
        let b := taskenv.SetTaskLocalDir (allocdir.LocalDir taskDir) b in
        taskenv.SetSecretsDir (allocdir.SecretsDir taskDir) b
    | _ =>
        let b := taskenv.SetAllocDir SharedAllocContainerPath b in
        let b := taskenv.SetTaskLocalDir TaskLocalContainerPath b in
        taskenv.SetSecretsDir TaskSecretsContainerPath b
    end in
  if decide (fsi ≠ drivers.FSIsolationImage) then
    let filter := envDenylist conf in
    taskenv.SetHostEnvvars environ filter b
  else b.
End SetEnvvars.

(* ===================================================================== *)
(** ** Effects: the trace of calls, the store and the ways a run ends    *)
(* ===================================================================== *)

(** What [rpcClient.Dispense] hands back: [raw.(drivers.DriverPlugin)]
    succeeds on [rawDriver] and panics on anything else. *)
Inductive Raw := rawDriver | rawOther.

(** The calls that leave the process, each with what it returned. *)
Inductive Event :=
| EvKill                                   (* client.Kill() *)
| EvPrintVersion                           (* fmt.Println(client.NegotiatedVersion()) *)
| EvClient (err : option error)            (* client.Client() *)
| EvDispense (name : string) (err : option error)
| EvSetConfig (err : option error)
| EvTempDir (dir : string) (err : option error)
| EvAllocDirBuild (dir : string) (err : option error)
| EvCapabilities (err : option error)
| EvTaskDirBuild (taskDir : allocdir.TaskDir) (chroot : bool) (err : option error)
| EvLogmonStart (cfg : logmon.LogConfig) (err : option error)
| EvLogmonStop
| EvAllocDirDestroy (dir : string)
| EvStartTask (t : drivers.TaskConfig) (err : option error)
| EvStopTask (id : string) (seconds : Z) (signal : string) (err : option error)
| EvSleep (seconds : Z)
| EvDump (state : string)
| EvFatal (err : error).

(** What the outside answers during one run. *)
Record World := {
  GOOS : string;                                   (* runtime.GOOS *)
  Environ : gmap string string;                    (* os.Environ() *)
  uuid_Generate : nat → string;                    (* the n-th uuid.Generate() *)
  client_Client : option error;
  rpcClient_Dispense : Raw * option error;
  dClient_SetConfig : option error;
  ioutil_TempDir : string * option error;
  allocDir_Build : option error;
  h_Capabilities : option drivers.Capabilities * option error;
  taskDir_Build : option error;
  lm_Start : option error;
  dClient_StartTask : option drivers.TaskHandle * option error;
  dClient_StopTask : option error
}.

(** A [*drivers.TaskConfig] is an address of the store. *)
Definition ptr : Type := nat.

Record State := {
  heap : gmap ptr drivers.TaskConfig;
  trace : list Event;
  uuids : nat                                      (* uuid.Generate() calls so far *)
}.

Definition initState : State := {| heap := ∅; trace := []; uuids := 0%nat |}.

(** How a piece of code ends: it returns, the process exits ([log.Fatal] is
    [os.Exit(1)], which runs no deferred function), it panics, or it is still
    inside the [for] loop when the observation ends. *)
Inductive Res (A : Type) :=
| Ret (a : A)
| Exit (code : Z)
| Panic
| Spin.
Arguments Ret {A} a.
Arguments Exit {A} code.
Arguments Panic {A}.
Arguments Spin {A}.

Definition M (A : Type) : Type := State → Res A * State.

#[global] Instance M_ret : MRet M := λ A a s, (Ret a, s).
#[global] Instance M_bind : MBind M := λ A B f m s,
  match m s with
  | (Ret a, s') => f a s'
  | (Exit c, s') => (Exit c, s')
  | (Panic, s') => (Panic, s')
  | (Spin, s') => (Spin, s')
  end.

Definition emit (e : Event) : M unit := λ s,
  (Ret (), {| heap := heap s; trace := trace s ++ [e]; uuids := uuids s |}).

Definition panic {A} : M A := λ s, (Panic, s).
Definition spin {A} : M A := λ s, (Spin, s).

(** [log.Fatal(err)]: print, then [os.Exit(1)]. *)
Definition log_Fatal {A} (err : error) : M A := λ s,
  (Exit 1, {| heap := heap s; trace := trace s ++ [EvFatal err]; uuids := uuids s |}).

(** [defer d(); rest]: [d] runs when [rest] returns or panics, and a panic
    goes on after it; it does not run when the process exits. *)
Definition defer {A} (d : M unit) (rest : M A) : M A := λ s,
  match rest s with
  | (Ret a, s') =>
      match d s' with
      | (Ret _, s'') => (Ret a, s'')
      | (Exit c, s'') => (Exit c, s'')
      | (Panic, s'') => (Panic, s'')
      | (Spin, s'') => (Spin, s'')
      end
  | (Panic, s') =>
      match d s' with
      | (Exit c, s'') => (Exit c, s'')
      | (Spin, s'') => (Spin, s'')
      | (_, s'') => (Panic, s'')
      end
  | (Exit c, s') => (Exit c, s')
  | (Spin, s') => (Spin, s')
  end.

(** [&drivers.TaskConfig{...}] *)
Definition new (c : drivers.TaskConfig) : M ptr := λ s,
  let p := fresh (dom (heap s)) in
  (Ret p, {| heap := <[p := c]> (heap s); trace := trace s; uuids := uuids s |}).

(** Reading through a pointer; a nil or dangling one panics. *)
Definition load (p : ptr) : M drivers.TaskConfig := λ s,
  match heap s !! p with
  | Some c => (Ret c, s)
  | None => (Panic, s)
  end.

(** Writing through a pointer. *)
Definition modify (p : ptr) (f : drivers.TaskConfig → drivers.TaskConfig) : M unit := λ s,
  match heap s !! p with
  | Some c => (Ret (), {| heap := <[p := f c]> (heap s); trace := trace s; uuids := uuids s |})
  | None => (Panic, s)
  end.

Definition uuid_next (w : World) : M string := λ s,
  (Ret (uuid_Generate w (uuids s)),
   {| heap := heap s; trace := trace s; uuids := S (uuids s) |}).

(** [s[:n]]: a slice bound past the end of the string panics. *)
Definition slice_to (n : nat) (s : string) : option string :=
  if (n <=? String.length s)%nat then Some (String.substring 0 n s) else None.

(** Field assignments [t.F = v]. *)
Definition set_AllocDir (v : string) (c : drivers.TaskConfig) : drivers.TaskConfig :=
  {| drivers.ID := drivers.ID c; drivers.Name := drivers.Name c;
     drivers.AllocID := drivers.AllocID c; drivers.Resources_ := drivers.Resources_ c;
     drivers.Env := drivers.Env c; drivers.AllocDir := v;
     drivers.StdoutPath := drivers.StdoutPath c; drivers.StderrPath := drivers.StderrPath c;
     drivers.rawDriverConfig := drivers.rawDriverConfig c |}.

Definition set_Env (v : option (gmap string string)) (c : drivers.TaskConfig) : drivers.TaskConfig :=
  {| drivers.ID := drivers.ID c; drivers.Name := drivers.Name c;
     drivers.AllocID := drivers.AllocID c; drivers.Resources_ := drivers.Resources_ c;
     drivers.Env := v; drivers.AllocDir := drivers.AllocDir c;
     drivers.StdoutPath := drivers.StdoutPath c; drivers.StderrPath := drivers.StderrPath c;
     drivers.rawDriverConfig := drivers.rawDriverConfig c |}.

Definition set_StdoutPath (v : string) (c : drivers.TaskConfig) : drivers.TaskConfig :=
  {| drivers.ID := drivers.ID c; drivers.Name := drivers.Name c;
     drivers.AllocID := drivers.AllocID c; drivers.Resources_ := drivers.Resources_ c;
     drivers.Env := drivers.Env c; drivers.AllocDir := drivers.AllocDir c;
     drivers.StdoutPath := v; drivers.StderrPath := drivers.StderrPath c;
     drivers.rawDriverConfig := drivers.rawDriverConfig c |}.

Definition set_StderrPath (v : string) (c : drivers.TaskConfig) : drivers.TaskConfig :=
  {| drivers.ID := drivers.ID c; drivers.Name := drivers.Name c;
     drivers.AllocID := drivers.AllocID c; drivers.Resources_ := drivers.Resources_ c;
     drivers.Env := drivers.Env c; drivers.AllocDir := drivers.AllocDir c;
     drivers.StdoutPath := drivers.StdoutPath c; drivers.StderrPath := v;
     drivers.rawDriverConfig := drivers.rawDriverConfig c |}.

Definition set_rawDriverConfig (v : list Byte.byte) (c : drivers.TaskConfig) : drivers.TaskConfig :=
  {| drivers.ID := drivers.ID c; drivers.Name := drivers.Name c;
     drivers.AllocID := drivers.AllocID c; drivers.Resources_ := drivers.Resources_ c;
     drivers.Env := drivers.Env c; drivers.AllocDir := drivers.AllocDir c;
     drivers.StdoutPath := drivers.StdoutPath c; drivers.StderrPath := drivers.StderrPath c;
     drivers.rawDriverConfig := v |}.

(* ===================================================================== *)
(** ** Package-level values of both programs                             *)
(* ===================================================================== *)

Definition busyboxLongRunningCmd : list string :=
  ["nc"; "-l"; "-p"; "3000"; "127.0.0.1"].

Definition basicResources : drivers.Resources :=
  {| drivers.NomadResources :=
       Some {| structs.Memory := {| structs.MemoryMB := 256 |};
               structs.Cpu := {| structs.CpuShares := 250 |} |};
     drivers.LinuxResources_ :=
       Some {| drivers.CPUShares := 512;
               drivers.MemoryLimitBytes := 256 * 1024 * 1024 |} |}.

(** [newTaskConfig(variant, command)]; [command[0]] panics on an empty
    command, which is [None] here. *)
Definition newTaskConfig (variant : string) (command : list string)
    : option docker.TaskConfig :=
  let busyboxImageID := "busybox:1.29.3" in
  let image := busyboxImageID in
  let loadImage := "busybox.tar" in
  let '(image, loadImage) :=
    if decide (variant ≠ "")
    then (busyboxImageID +:+ "-" +:+ variant, "busybox_" +:+ variant +:+ ".tar")
    else (image, loadImage) in
  match command with
  | [] => None
  | command0 :: command1 =>
      Some {| docker.Image := image;
              docker.ImagePullTimeout := "5m";
              docker.LoadImage := loadImage;
              docker.Command := command0;
              docker.Args := command1 |}
  end.

(* ===================================================================== *)
(** ** MkAllocDir and the two main functions                             *)
(* ===================================================================== *)

(** The two closures [MkAllocDir] returns:
    [func() { lm.Stop(); allocDir.Destroy() }] and
    [func() { allocDir.Destroy() }]. *)
Inductive Cleanup :=
| cleanupLogs (allocDir : allocdir.AllocDir)
| cleanupDir (allocDir : allocdir.AllocDir).

Definition lm_Stop : M unit := emit EvLogmonStop.

Definition allocDir_Destroy (allocDir : allocdir.AllocDir) : M unit :=
  emit (EvAllocDirDestroy (allocdir.AllocDir_ allocDir)).

(** Calling the closure. *)
Definition runCleanup (c : Cleanup) : M unit :=
  match c with
  | cleanupLogs allocDir => lm_Stop ;; allocDir_Destroy allocDir
  | cleanupDir allocDir => allocDir_Destroy allocDir
  end.

(** The loop [for k, v := range taskEnv { if _, ok := env[k]; !ok { env[k] = v } }]
    over the caller's map [env]. *)
Definition fillEnv (env taskEnv : gmap string string) : gmap string string :=
  map_fold (λ k v env, match env !! k with
                       | Some _ => env
                       | None => <[k := v]> env
                       end) env taskEnv.

(** [for { spew.Dump(th.State); time.Sleep(1 * time.Second) }]: the loop has
    no exit; [fuel] bounds how many rounds of it are observed.  [th.State]
    through a nil handle panics. *)
Fixpoint observe (th : option drivers.TaskHandle) (fuel : nat) : M unit :=
  match fuel with
  | O => spin
  | S fuel =>
      match th with
      | None => panic
      | Some h =>
          emit (EvDump (drivers.State h)) ;;
          emit (EvSleep 1) ;;
          observe th fuel
      end
  end.

Section Harness.
Context `{Lib}.
Variable w : World.

(** [func (h *DriverHarness) MkAllocDir(t *drivers.TaskConfig, enableLogs bool)
    (func(), error)] *)
Definition MkAllocDir (t : ptr) (enableLogs : bool)
    : M (option Cleanup * option error) :=
  let '(dir, err) := ioutil_TempDir w in
  emit (EvTempDir dir err) ;;
  match err with
  | Some err => mret (None, Some err)
  | None =>
  modify t (set_AllocDir dir) ;;
  let allocDir := allocdir.NewAllocDir dir in
  let err := allocDir_Build w in
  emit (EvAllocDirBuild dir err) ;;
  match err with
  | Some err => mret (None, Some err)
  | None =>
  t0 ← load t;
  let taskDir := NewTaskDir allocDir (drivers.Name t0) in
  let '(caps, err) := h_Capabilities w in
  emit (EvCapabilities err) ;;
  match err with
  | Some err => mret (None, Some err)
  | None =>
  match caps with
  | None => panic
  | Some caps =>
  let fsi := drivers.FSIsolation_ caps in
  let err := taskDir_Build w in
  emit (EvTaskDirBuild taskDir (bool_decide (fsi = drivers.FSIsolationChroot)) err) ;;
  match err with
  | Some err => mret (None, Some err)
  | None =>
  t0 ← load t;
  let task := {| structs.Name := drivers.Name t0; structs.Env := drivers.Env t0 |} in
  (* Create the mock allocation *)
  let alloc := mock_Alloc in
  let alloc :=
    match drivers.Resources_ t0 with
    | Some r =>
        {| structs.AllocatedTasks :=
             <[structs.Name task := drivers.NomadResources r]>
               (structs.AllocatedTasks alloc) |}
    | None => alloc
    end in
  let taskBuilder := taskenv.NewBuilder mock_Node alloc task "global" in
  let taskBuilder := SetEnvvars (Environ w) taskBuilder fsi taskDir DefaultConfig in
  let taskEnv := Build_Map taskBuilder in
  modify t (λ c,
    match drivers.Env c with
    | None => set_Env (Some taskEnv) c
    | Some env => set_Env (Some (fillEnv env taskEnv)) c
    end) ;;
  (* logmon *)
  if enableLogs then
    (if decide (GOOS w = "windows") then
       u ← uuid_next w;
       match slice_to 8 u with
       | None => panic
       | Some id =>
           modify t (λ c, set_StdoutPath
             ("//./pipe/" +:+ drivers.Name c +:+ "-" +:+ id +:+ ".stdout") c) ;;
           modify t (λ c, set_StderrPath
             ("//./pipe/" +:+ drivers.Name c +:+ "-" +:+ id +:+ ".stderr") c)
       end
     else
       modify t (λ c, set_StdoutPath
         (filepath_Join [allocdir.LogDir taskDir;
                         "." +:+ drivers.Name c +:+ ".stdout.fifo"]) c) ;;
       modify t (λ c, set_StderrPath
         (filepath_Join [allocdir.LogDir taskDir;
                         "." +:+ drivers.Name c +:+ ".stderr.fifo"]) c)) ;;
    t0 ← load t;
    let cfg :=
      {| logmon.LogDir := allocdir.LogDir taskDir;
         logmon.StdoutLogFile := drivers.Name t0 +:+ ".stdout";
         logmon.StderrLogFile := drivers.Name t0 +:+ ".stderr";
         logmon.StdoutFifo := drivers.StdoutPath t0;
         logmon.StderrFifo := drivers.StderrPath t0;
         logmon.MaxFiles := 10;
         logmon.MaxFileSizeMB := 10 |} in
    let err := lm_Start w in
    emit (EvLogmonStart cfg err) ;;
    match err with
    | Some err => mret (None, Some err)
    | None => mret (Some (cleanupLogs allocDir), None)
    end
  else
    mret (Some (cleanupDir allocDir), None)
  end end end end end.

(** [task.EncodeConcreteDriverConfig(&taskCfg)]; its error is dropped. *)
Definition EncodeConcreteDriverConfig (task : ptr) (taskCfg : docker.TaskConfig)
    : M unit :=
  match encodeDriverConfig taskCfg with
  | Some bytes => modify task (set_rawDriverConfig bytes)
  | None => mret ()
  end.

(** The steps both programs share: connect, dispense the driver plugin
    and configure it. *)
Definition dispenseDriver : M unit :=
  let err := client_Client w in
  emit (EvClient err) ;;
  match err with
  | Some err => log_Fatal err
  | None =>
  let '(raw, err) := rpcClient_Dispense w in
  emit (EvDispense "driver" err) ;;
  match err with
  | Some err => log_Fatal err
  | None =>
  match raw with
  | rawOther => panic
  | rawDriver => mret ()
  end end end.

Definition SetConfig : M unit :=
  let err := dClient_SetConfig w in
  emit (EvSetConfig err) ;;
  match err with
  | Some err => log_Fatal err
  | None => mret ()
  end.

(** [task := &drivers.TaskConfig{ID: uuid.Generate(), Name: "nc-demo", ...}] *)
Definition newTask : M ptr :=
  id ← uuid_next w;
  allocID ← uuid_next w;
  new {| drivers.ID := id; drivers.Name := "nc-demo";
         drivers.AllocID := allocID;
         drivers.Resources_ := Some basicResources;
         drivers.Env := None; drivers.AllocDir := "";
         drivers.StdoutPath := ""; drivers.StderrPath := "";
         drivers.rawDriverConfig := [] |}.

(** [dClient.StartTask(task)] *)
Definition StartTask (task : ptr) : M (option drivers.TaskHandle * option error) :=
  t0 ← load task;
  let '(th, err) := dClient_StartTask w in
  emit (EvStartTask t0 err) ;;
  mret (th, err).

(** The deferred [func() { err := dClient.StopTask(task.ID, time.Second,
    "SIGINT"); if err != nil { log.Fatal(err) }; time.Sleep(time.Second * 5) }] *)
Definition stopTask (task : ptr) : M unit :=
  t0 ← load task;
  let err := dClient_StopTask w in
  emit (EvStopTask (drivers.ID t0) 1 "SIGINT" err) ;;
  match err with
  | Some err => log_Fatal err
  | None => emit (EvSleep 5)
  end.

(** [main] of the plain launcher. *)
Definition main_launcher : M unit :=
  defer (emit EvKill) (
    emit EvPrintVersion ;;
    dispenseDriver ;;
    SetConfig ;;
    (* try *)
    match newTaskConfig "" busyboxLongRunningCmd with
    | None => panic
    | Some taskCfg =>
    task ← newTask;
    EncodeConcreteDriverConfig task taskCfg ;;
    '(_, err) ← StartTask task;
    match err with
    | Some err => log_Fatal err
    | None => mret ()
    end end).

(** [main] of the harness; [fuel] bounds the rounds of its last loop. *)
Definition main_harness (fuel : nat) : M unit :=
  defer (emit EvKill) (
    dispenseDriver ;;
    SetConfig ;;
    (* try *)
    match newTaskConfig "" busyboxLongRunningCmd with
    | None => panic
    | Some taskCfg =>
    task ← newTask;
    '(cleanup, err) ← MkAllocDir task true;
    match err with
    | Some err => log_Fatal err
    | None =>
    defer (match cleanup with Some c => runCleanup c | None => panic end) (
      EncodeConcreteDriverConfig task taskCfg ;;
      '(th, err) ← StartTask task;
      match err with
      | Some err => log_Fatal err
      | None =>
      defer (stopTask task) (observe th fuel)
      end)
    end end).
End Harness.

(** How the process is found at the end of an observation. *)
Inductive Status := Exited (code : Z) | Running.

(** Go ends a process whose [main] returned with status 0 and one that
    panicked with status 2. *)
Definition run (m : M unit) : Status * list Event :=
  match m initState with
  | (Ret _, s) => (Exited 0, trace s)
  | (Exit c, s) => (Exited c, trace s)
  | (Panic, s) => (Exited 2, trace s)
  | (Spin, s) => (Running, trace s)
  end.

(* ===================================================================== *)
(** ** A concrete library and concrete worlds for the examples           *)
(* ===================================================================== *)

Module Sample.
(** Splitting at a one-character separator. *)
Fixpoint splitAt (sep : Ascii.ascii) (cur : string) (s : string) : list string :=
  match s with
  | EmptyString => [String.rev cur]
  | String c s' =>
      if Ascii.eqb c sep then String.rev cur :: splitAt sep "" s'
      else splitAt sep (String c cur) s'
  end.

Definition split (s sep : string) : list string :=
  match sep with
  | String c EmptyString => splitAt c "" s
  | _ => [s]
  end.

Fixpoint readAlternative (opts : gmap string string) (ids : list string)
    (default : string) : string :=
  match ids with
  | [] => default
  | id :: ids =>
      match opts !! id with
      | Some v => v
      | None => readAlternative opts ids default
      end
  end.

Fixpoint join (elems : list string) : string :=
  match elems with
  | [] => ""
  | [e] => e
  | e :: es => e +:+ "/" +:+ join es
  end.

Definition taskDirOf (a : allocdir.AllocDir) (name : string) : allocdir.TaskDir :=
  let root := allocdir.AllocDir_ a in
  {| allocdir.Dir := join [root; name];
     allocdir.SharedAllocDir := join [root; "alloc"];
     allocdir.LocalDir := join [root; name; "local"];
     allocdir.SecretsDir := join [root; name; "secrets"];
     allocdir.LogDir := join [root; "alloc"; "logs"] |}.

(** A built mapping: the three directory variables over the inherited
    host variables. *)
Definition buildMap (b : taskenv.Builder) : gmap string string :=
  <["NOMAD_ALLOC_DIR" := taskenv.allocDir b]>
    (<["NOMAD_TASK_DIR" := taskenv.localDir b]>
       (<["NOMAD_SECRETS_DIR" := taskenv.secretsDir b]> (taskenv.hostEnv b))).

Definition lib : Lib :=
  {| SharedAllocContainerPath := "/alloc";
     TaskLocalContainerPath := "/local";
     TaskSecretsContainerPath := "/secrets";
     NewTaskDir := taskDirOf;
     DefaultEnvDenylist := "VAULT_TOKEN,AWS_SECRET_ACCESS_KEY";
     DefaultConfig := {| config.Options := ∅ |};
     ReadAlternativeDefault := λ conf, readAlternative (config.Options conf);
     strings_Split := split;
     filepath_Join := join;
     mock_Node := {| structs.ID := "node-1" |};
     mock_Alloc := {| structs.AllocatedTasks := ∅ |};
     Build_Map := buildMap;
     encodeDriverConfig := λ _, Some [] |}.

Definition taskDir : allocdir.TaskDir :=
  taskDirOf (allocdir.NewAllocDir "/tmp/h") "nc-demo".

Definition environ : gmap string string :=
  <["PATH" := "/bin"]> (<["VAULT_TOKEN" := "s3cret"]> ∅).

Definition builder : taskenv.Builder :=
  taskenv.NewBuilder {| structs.ID := "node-1" |}
    {| structs.AllocatedTasks := ∅ |}
    {| structs.Name := "nc-demo"; structs.Env := None |} "global".

Definition conf : config.Config :=
  {| config.Options := <["env.denylist" := "PATH,HOME"]> ∅ |}.

Definition uuid (n : nat) : string :=
  match n with
  | O => "0b7ad2c1-5a6e-4b0e-9d57-1f0c6a1e2d33"
  | 1%nat => "7f3c9e10-88aa-4c52-b1d4-93e0f5a7c6b2"
  | _ => "c4d5e6f7-0a1b-4c2d-8e3f-a4b5c6d7e8f9"
  end.

(** A world in which every call before [StartTask] succeeds. *)
Definition world (goos : string)
    (startTask : option drivers.TaskHandle * option error)
    (stopTask : option error) : World :=
  {| GOOS := goos; Environ := environ; uuid_Generate := uuid;
     client_Client := None; rpcClient_Dispense := (rawDriver, None);
     dClient_SetConfig := None;
     ioutil_TempDir := ("/tmp/nomad_driver_harness-1", None);
     allocDir_Build := None;
     h_Capabilities := (Some {| drivers.FSIsolation_ := drivers.FSIsolationImage |}, None);
     taskDir_Build := None; lm_Start := None;
     dClient_StartTask := startTask; dClient_StopTask := stopTask |}.

Definition handle : drivers.TaskHandle := {| drivers.State := "running" |}.

(** The task runs and the handle is there: the loop goes on. *)
Definition world_running : World := world "linux" (Some handle, None) None.

(** The same on Windows, where the sinks are named pipes. *)
Definition world_windows : World := world "windows" (Some handle, None) None.

(** A driver that asks for a chroot. *)
Definition world_chroot : World :=
  {| GOOS := "linux"; Environ := environ; uuid_Generate := uuid;
     client_Client := None; rpcClient_Dispense := (rawDriver, None);
     dClient_SetConfig := None;
     ioutil_TempDir := ("/tmp/nomad_driver_harness-1", None);
     allocDir_Build := None;
     h_Capabilities := (Some {| drivers.FSIsolation_ := drivers.FSIsolationChroot |}, None);
     taskDir_Build := None; lm_Start := None;
     dClient_StartTask := (Some handle, None); dClient_StopTask := None |}.

(** [StartTask] returns no error and a nil handle: the loop panics in its
    first round, which starts the teardown; [StopTask] then fails. *)
Definition world_stop_fails : World :=
  world "linux" (None, None) (Some "rpc error: transport is closing").

(** The same teardown with a [StopTask] that succeeds. *)
Definition world_stop_ok : World := world "linux" (None, None) None.

(** The driver refuses [SetConfig]. *)
Definition world_bad_config : World :=
  {| GOOS := "linux"; Environ := environ; uuid_Generate := uuid;
     client_Client := None; rpcClient_Dispense := (rawDriver, None);
     dClient_SetConfig := Some "invalid config";
     ioutil_TempDir := ("/tmp/nomad_driver_harness-1", None);
     allocDir_Build := None;
     h_Capabilities := (Some {| drivers.FSIsolation_ := drivers.FSIsolationImage |}, None);
     taskDir_Build := None; lm_Start := None;
     dClient_StartTask := (Some handle, None); dClient_StopTask := None |}.

(** The temporary directory and the allocation directory are built, then
    [Capabilities] fails. *)
Definition world_caps_fail : World :=
  {| GOOS := "linux"; Environ := environ; uuid_Generate := uuid;
     client_Client := None; rpcClient_Dispense := (rawDriver, None);
     dClient_SetConfig := None;
     ioutil_TempDir := ("/tmp/nomad_driver_harness-1", None);
     allocDir_Build := None;
     h_Capabilities := (None, Some "rpc error: unavailable");
     taskDir_Build := None; lm_Start := None;
     dClient_StartTask := (Some handle, None); dClient_StopTask := None |}.

(** Everything up to the log monitor is built, then [lm.Start] fails. *)
Definition world_logmon_fail : World :=
  {| GOOS := "linux"; Environ := environ; uuid_Generate := uuid;
     client_Client := None; rpcClient_Dispense := (rawDriver, None);
     dClient_SetConfig := None;
     ioutil_TempDir := ("/tmp/nomad_driver_harness-1", None);
     allocDir_Build := None;
     h_Capabilities := (Some {| drivers.FSIsolation_ := drivers.FSIsolationImage |}, None);
     taskDir_Build := None; lm_Start := Some "mkfifo: permission denied";
     dClient_StartTask := (Some handle, None); dClient_StopTask := None |}.

(** A caller's task with part of its environment set, in a store. *)
Definition callerTask : drivers.TaskConfig :=
  {| drivers.ID := "id-1"; drivers.Name := "web"; drivers.AllocID := "alloc-1";
     drivers.Resources_ := Some basicResources;
     drivers.Env := Some (<["NOMAD_TASK_DIR" := "/mine"]> ∅);
     drivers.AllocDir := ""; drivers.StdoutPath := ""; drivers.StderrPath := "";
     drivers.rawDriverConfig := [] |}.

Definition callerState : State :=
  {| heap := <[7%nat := callerTask]> ∅; trace := []; uuids := 0%nat |}.
End Sample.

(* ===================================================================== *)
(** ** Reading traces                                                     *)
(* ===================================================================== *)

(** The call behind an event, without its arguments and result. *)
Inductive Call :=
| Kill | PrintVersion | Client | Dispense | SetConfigCall | TempDir
| AllocDirBuild | Capabilities | TaskDirBuild | LogmonStart | LogmonStop
| AllocDirDestroy | StartTaskCall | StopTaskCall | Sleep | Dump | Fatal.

#[global] Instance Call_eq_dec : EqDecision Call.
Proof. solve_decision. Defined.

Definition call_of (e : Event) : Call :=
  match e with
  | EvKill => Kill
  | EvPrintVersion => PrintVersion
  | EvClient _ => Client
  | EvDispense _ _ => Dispense
  | EvSetConfig _ => SetConfigCall
  | EvTempDir _ _ => TempDir
  | EvAllocDirBuild _ _ => AllocDirBuild
  | EvCapabilities _ => Capabilities
  | EvTaskDirBuild _ _ _ => TaskDirBuild
  | EvLogmonStart _ _ => LogmonStart
  | EvLogmonStop => LogmonStop
  | EvAllocDirDestroy _ => AllocDirDestroy
  | EvStartTask _ _ => StartTaskCall
  | EvStopTask _ _ _ _ => StopTaskCall
  | EvSleep _ => Sleep
  | EvDump _ => Dump
  | EvFatal _ => Fatal
  end.

(** The calls of a trace, in order. *)
Definition calls (tr : list Event) : list Call := call_of <$> tr.

(** The events [m] adds when it runs from [s], and how it ends. *)
Definition emitted {A} (m : M A) (s : State) : list Event :=
  drop (length (trace s)) (trace (m s).2).

(** The error an event reports, if any. *)
Definition err_of (e : Event) : option error :=
  match e with
  | EvClient err | EvDispense _ err | EvSetConfig err | EvTempDir _ err
  | EvAllocDirBuild _ err | EvCapabilities err | EvTaskDirBuild _ _ err
  | EvLogmonStart _ err | EvStartTask _ err | EvStopTask _ _ _ err => err
  | EvFatal err => Some err
  | _ => None
  end.

(** The five stages of [MkAllocDir]: temp-dir creation, allocation-directory
    Build, Capabilities, task-directory Build and log-monitor Start. *)
Definition setupCalls : list Call :=
  [TempDir; AllocDirBuild; Capabilities; TaskDirBuild; LogmonStart].

(** A setup stage that went through, and one that failed with [err]. *)
Definition setupOk (e : Event) : Prop :=
  call_of e ∈ setupCalls ∧ err_of e = None.

Definition setupFailed (err : error) (e : Event) : Prop :=
  call_of e ∈ setupCalls ∧ err_of e = Some err.

(** [n] rounds of the observation loop on the handle [h]. *)
Fixpoint rounds (h : drivers.TaskHandle) (n : nat) : list Event :=
  match n with
  | O => []
  | S n => EvDump (drivers.State h) :: EvSleep 1 :: rounds h n
  end.

(** What both programs do before they build the task: connect, dispense,
    configure. *)
Definition configured : list Event :=
  [EvClient None; EvDispense "driver" None; EvSetConfig None].

Section Harness_spec.
Context `{Lib}.

(** The environment [MkAllocDir] builds for the task [c] when the temporary
    directory is [dir] and the driver reports the isolation mode [fsi]. *)
Definition taskEnvOf (w : World) (dir : string) (fsi : drivers.FSIsolation)
    (c : drivers.TaskConfig) : gmap string string :=
  let task := {| structs.Name := drivers.Name c; structs.Env := drivers.Env c |} in
  let alloc :=
    match drivers.Resources_ c with
    | Some r =>
        {| structs.AllocatedTasks :=
             <[drivers.Name c := drivers.NomadResources r]>
               (structs.AllocatedTasks mock_Alloc) |}
    | None => mock_Alloc
    end in
  Build_Map
    (SetEnvvars (Environ w)
       (taskenv.NewBuilder mock_Node alloc task "global") fsi
       (NewTaskDir (allocdir.NewAllocDir dir) (drivers.Name c)) DefaultConfig).

(** The runs of the harness, by the place where they end.  [setup] is what
    [MkAllocDir] did, [t] the task configuration [StartTask] was given. *)
Inductive HarnessRun (w : World) (fuel : nat) : Status → list Event → Prop :=
| run_client_fails e :
    HarnessRun w fuel (Exited 1) [EvClient (Some e); EvFatal e]
| run_dispense_fails e :
    HarnessRun w fuel (Exited 1)
      [EvClient None; EvDispense "driver" (Some e); EvFatal e]
| run_not_a_driver :
    HarnessRun w fuel (Exited 2)
      [EvClient None; EvDispense "driver" None; EvKill]
| run_config_fails e :
    dClient_SetConfig w = Some e →
    HarnessRun w fuel (Exited 1)
      [EvClient None; EvDispense "driver" None; EvSetConfig (Some e); EvFatal e]
| run_setup_fails setup ev e :
    Forall setupOk setup → setupFailed e ev →
    HarnessRun w fuel (Exited 1) (configured ++ setup ++ [ev; EvFatal e])
| run_setup_panics setup :
    Forall setupOk setup →
    HarnessRun w fuel (Exited 2) (configured ++ setup ++ [EvKill])
| run_start_fails setup t e :
    Forall setupOk setup →
    HarnessRun w fuel (Exited 1)
      (configured ++ setup ++ [EvStartTask t (Some e); EvFatal e])
| run_observing setup t h :
    dClient_StartTask w = (Some h, None) →
    Forall setupOk setup →
    HarnessRun w fuel Running
      (configured ++ setup ++ EvStartTask t None :: rounds h fuel)
| run_not_observed setup t :
    fuel = O →
    dClient_StartTask w = (None, None) →
    Forall setupOk setup →
    HarnessRun w fuel Running (configured ++ setup ++ [EvStartTask t None])
| run_stop_fails setup t e :
    dClient_StartTask w = (None, None) →
    Forall setupOk setup →
    HarnessRun w fuel (Exited 1)
      (configured ++ setup ++
         [EvStartTask t None; EvStopTask (drivers.ID t) 1 "SIGINT" (Some e);
          EvFatal e])
| run_torn_down setup t dir :
    dClient_StartTask w = (None, None) →
    Forall setupOk setup →
    EvTempDir dir None ∈ setup →
    HarnessRun w fuel (Exited 2)
      (configured ++ setup ++
         [EvStartTask t None; EvStopTask (drivers.ID t) 1 "SIGINT" None;
          EvSleep 5; EvLogmonStop; EvAllocDirDestroy dir; EvKill]).
End Harness_spec.

(** The runs of the plain launcher. *)
Inductive LauncherRun : Status → list Event → Prop :=
| launch_client_fails e :
    LauncherRun (Exited 1) [EvPrintVersion; EvClient (Some e); EvFatal e]
| launch_dispense_fails e :
    LauncherRun (Exited 1)
      [EvPrintVersion; EvClient None; EvDispense "driver" (Some e); EvFatal e]
| launch_not_a_driver :
    LauncherRun (Exited 2)
      [EvPrintVersion; EvClient None; EvDispense "driver" None; EvKill]
| launch_config_fails e :
    LauncherRun (Exited 1)
      [EvPrintVersion; EvClient None; EvDispense "driver" None;
       EvSetConfig (Some e); EvFatal e]
| launch_start_fails t e :
    LauncherRun (Exited 1)
      [EvPrintVersion; EvClient None; EvDispense "driver" None;
       EvSetConfig None; EvStartTask t (Some e); EvFatal e]
| launch_started t :
    LauncherRun (Exited 0)
      [EvPrintVersion; EvClient None; EvDispense "driver" None;
       EvSetConfig None; EvStartTask t None; EvKill].

(** [StartTask] returned without an error somewhere in the trace. *)
Definition started (e : Event) : bool :=
  match e with
  | EvStartTask _ None => true
  | _ => false
  end.

Definition taskStarted (tr : list Event) : Prop := existsb started tr = true.

(** [StartTask] comes only after a [SetConfig] that returned no error, and
    not at all in a run in which [SetConfig] returned one. *)
Definition configuredBeforeStart (tr : list Event) : Prop :=
  (∀ tr1 t err tr2, tr = tr1 ++ EvStartTask t err :: tr2 → EvSetConfig None ∈ tr1) ∧
  (∀ e, EvSetConfig (Some e) ∈ tr → StartTaskCall ∉ calls tr).

(** A setup stage of the run failed. *)
Definition setupFailure (tr : list Event) : Prop :=
  ∃ ev err, ev ∈ tr ∧ setupFailed err ev.

(** Three sentences of the specification, as they are written.

    A failed setup is cleaned up: when a setup stage fails, the temporary
    directory that was created is destroyed again. *)
Definition failed_setup_is_cleaned_up : Prop :=
  ∀ (L : Lib) (w : World) (fuel : nat) (dir : string),
    let tr := (run (main_harness w fuel)).2 in
    setupFailure tr → EvTempDir dir None ∈ tr → EvAllocDirDestroy dir ∈ tr.

(** A failing StopTask does not stop the cleanup: whenever StopTask was
    attempted, the log monitor is stopped, the allocation directory destroyed
    and the session killed. *)
Definition stop_failure_keeps_cleanup : Prop :=
  ∀ (L : Lib) (w : World) (fuel : nat),
    let tr := calls (run (main_harness w fuel)).2 in
    StopTaskCall ∈ tr → LogmonStop ∈ tr ∧ AllocDirDestroy ∈ tr ∧ Kill ∈ tr.

(** The loop does not hold up the teardown: once the task is started, some
    number of rounds is enough for StopTask to be attempted. *)
Definition loop_yields_to_teardown : Prop :=
  ∀ (L : Lib) (w : World),
    (∃ fuel, taskStarted (run (main_harness w fuel)).2) →
    ∃ fuel, StopTaskCall ∈ calls (run (main_harness w fuel)).2.

(* ===================================================================== *)
(** ** The sample plugin                                                  *)
(* ===================================================================== *)

(** The plugin the third program serves: [type A struct{}] with
    [func (a A) SayHello(n string) (string, error)]. *)
Module A.
Definition SayHello (n : string) : string * option error :=
  ("hello, " +:+ n, None).
End A.

(* ===================================================================== *)
(** ** The task of the two programs                                      *)
(* ===================================================================== *)

(** The task both programs make: [&drivers.TaskConfig{ID: uuid.Generate(),
    Name: "nc-demo", AllocID: uuid.Generate(), Resources: basicResources}]. *)
Definition demoTask (w : World) : drivers.TaskConfig :=
  {| drivers.ID := uuid_Generate w 0; drivers.Name := "nc-demo";
     drivers.AllocID := uuid_Generate w 1;
     drivers.Resources_ := Some basicResources;
     drivers.Env := None; drivers.AllocDir := "";
     drivers.StdoutPath := ""; drivers.StderrPath := "";
     drivers.rawDriverConfig := [] |}.

(** The driver configuration both programs encode. *)
Definition demoDriverConfig : docker.TaskConfig :=
  {| docker.Image := "busybox:1.29.3"; docker.ImagePullTimeout := "5m";
     docker.LoadImage := "busybox.tar"; docker.Command := "nc";
     docker.Args := ["-l"; "-p"; "3000"; "127.0.0.1"] |}.

(* ===================================================================== *)
(** ** SetEnvvars: paths and host environment                            *)
(* ===================================================================== *)

Section SetEnvvars_facts.
Context `{Lib}.
Implicit Types (environ : gmap string string) (b : taskenv.Builder)
  (fsi : drivers.FSIsolation) (taskDir : allocdir.TaskDir) (conf : config.Config).

(** Whatever the mode, the client-side paths are the real ones. *)
Lemma SetEnvvars_client_paths environ b fsi taskDir conf :
  let b' := SetEnvvars environ b fsi taskDir conf in
  taskenv.clientTaskRoot b' = allocdir.Dir taskDir ∧
  taskenv.clientSharedAllocDir b' = allocdir.SharedAllocDir taskDir ∧
  taskenv.clientTaskLocalDir b' = allocdir.LocalDir taskDir ∧
  taskenv.clientTaskSecretsDir b' = allocdir.SecretsDir taskDir.
Proof. unfold SetEnvvars. destruct fsi; case_decide; done. Qed.

(** C1.  After [SetEnvvars] the three directories the task sees are the
    host paths of the task directory when the isolation mode is none, and
    the container paths [SharedAllocContainerPath],
    [TaskLocalContainerPath], [TaskSecretsContainerPath] in every other
    mode (chroot and image). *)
Theorem SetEnvvars_task_paths environ b fsi taskDir conf :
  let b' := SetEnvvars environ b fsi taskDir conf in
  (fsi = drivers.FSIsolationNone →
     taskenv.allocDir b' = allocdir.SharedAllocDir taskDir ∧
     taskenv.localDir b' = allocdir.LocalDir taskDir ∧
     taskenv.secretsDir b' = allocdir.SecretsDir taskDir) ∧
  (fsi ≠ drivers.FSIsolationNone →
     taskenv.allocDir b' = SharedAllocContainerPath ∧
     taskenv.localDir b' = TaskLocalContainerPath ∧
     taskenv.secretsDir b' = TaskSecretsContainerPath).
Proof.
  unfold SetEnvvars. split; intros Hfsi.
  - rewrite Hfsi. case_decide; done.
  - destruct fsi; [done | case_decide; done ..].
Qed.






End SetEnvvars_facts.

(** The three modes on the sample task directory. *)
Example SetEnvvars_none_paths :
  let b := @SetEnvvars Sample.lib Sample.environ Sample.builder
             drivers.FSIsolationNone Sample.taskDir Sample.conf in
  (taskenv.allocDir b, taskenv.localDir b, taskenv.secretsDir b) =
  ("/tmp/h/alloc", "/tmp/h/nc-demo/local", "/tmp/h/nc-demo/secrets").
Proof. reflexivity. Qed.

Example SetEnvvars_chroot_paths :
  let b := @SetEnvvars Sample.lib Sample.environ Sample.builder
             drivers.FSIsolationChroot Sample.taskDir Sample.conf in
  (taskenv.allocDir b, taskenv.localDir b, taskenv.secretsDir b) =
  ("/alloc", "/local", "/secrets").
Proof. reflexivity. Qed.

Example SetEnvvars_image_paths :
  let b := @SetEnvvars Sample.lib Sample.environ Sample.builder
             drivers.FSIsolationImage Sample.taskDir Sample.conf in
  (taskenv.allocDir b, taskenv.localDir b, taskenv.secretsDir b) =
  ("/alloc", "/local", "/secrets").
Proof. reflexivity. Qed.

(** With the denylist "PATH,HOME" the host's PATH is dropped and its
    VAULT_TOKEN is kept; in image mode nothing is kept. *)
Example SetEnvvars_chroot_hostEnv :
  map_to_list (taskenv.hostEnv
    (@SetEnvvars Sample.lib Sample.environ Sample.builder
       drivers.FSIsolationChroot Sample.taskDir Sample.conf)) =
  [("VAULT_TOKEN", "s3cret")].
Proof. vm_compute. reflexivity. Qed.

Example SetEnvvars_image_hostEnv :
  map_to_list (taskenv.hostEnv
    (@SetEnvvars Sample.lib Sample.environ Sample.builder
       drivers.FSIsolationImage Sample.taskDir Sample.conf)) = [].
Proof. vm_compute. reflexivity. Qed.

(* ===================================================================== *)
(** ** Running the code: equations and tactics                           *)
(* ===================================================================== *)

Lemma load_eq p c s : heap s !! p = Some c → load p s = (Ret c, s).
Proof. unfold load. by intros ->. Qed.

Lemma modify_eq p f c s :
  heap s !! p = Some c →
  modify p f s =
  (Ret (), {| heap := <[p := f c]> (heap s); trace := trace s; uuids := uuids s |}).
Proof. unfold modify. by intros ->. Qed.

Lemma modify_dangling p f s : heap s !! p = None → modify p f s = (Panic, s).
Proof. unfold modify. by intros ->. Qed.

Lemma slice_to_length n u id : slice_to n u = Some id → String.length id = n.
Proof.
  unfold slice_to. destruct (n <=? String.length u)%nat eqn:Hle; [| done].
  intros [= <-]. apply Nat.leb_le in Hle. revert n Hle.
  induction u as [| a u IH]; intros [| n] Hle; cbn in *; try done; try lia.
  f_equal. apply IH. lia.
Qed.

(** The loop over the built environment is a union that prefers the caller's
    entries. *)
Lemma fillEnv_union (env taskEnv : gmap string string) :
  fillEnv env taskEnv = env ∪ taskEnv.
Proof.
  unfold fillEnv. apply (map_fold_weak_ind (λ r m, r = env ∪ m)).
  - symmetry. apply (right_id_L ∅ (∪)).
  - intros k v m r Hk ->. destruct ((env ∪ m) !! k) as [x|] eqn:Hl.
    + apply lookup_union_Some_raw in Hl as [Hl | [_ Hl]]; [| congruence].
      apply map_eq. intros i. rewrite !lookup_union.
      destruct (decide (i = k)) as [-> | ?].
      * rewrite Hl, Hk, lookup_insert_eq. done.
      * by rewrite lookup_insert_ne.
    + apply lookup_union_None in Hl as [Hl _]. by rewrite insert_union_r.
Qed.

(** One step of the code on a state: unfold the monad, reduce the
    projections, read and write the store. *)
Ltac heap_lookup := cbn [heap]; first [eassumption | apply lookup_insert_eq].

Ltac exec_step :=
  first
  [ progress cbv [mbind M_bind mret M_ret emit log_Fatal panic spin uuid_next]
  | progress cbn [heap trace uuids fst snd ioutil_TempDir allocDir_Build
      h_Capabilities taskDir_Build lm_Start GOOS Environ uuid_Generate
      client_Client rpcClient_Dispense dClient_SetConfig dClient_StartTask
      dClient_StopTask]
  | erewrite load_eq by heap_lookup
  | erewrite modify_eq by heap_lookup
  | rewrite insert_insert_eq ].

Ltac exec := repeat exec_step.

(** Case analysis on what the world answers, where the code looks at it. *)
Ltac split_var :=
  match goal with
  | |- context [match ?x with _ => _ end] => is_var x; destruct x
  | |- context [decide ?P] => destruct (decide P)
  | |- context [slice_to ?n ?u] => destruct (slice_to n u) eqn:?
  end.

Ltac world w :=
  destruct w as [goos env uuid cc [raw de] sc [dir te] ab [caps ce] tb ls [th se] st];
  cbn [ioutil_TempDir allocDir_Build h_Capabilities taskDir_Build lm_Start GOOS
       Environ uuid_Generate client_Client rpcClient_Dispense dClient_SetConfig
       dClient_StartTask dClient_StopTask] in *.

Ltac run_MkAllocDir w :=
  world w; unfold MkAllocDir; exec; repeat (split_var; exec).

Ltac fields :=
  cbn [set_AllocDir set_Env set_StdoutPath set_StderrPath set_rawDriverConfig
       drivers.ID drivers.Name drivers.AllocID drivers.Resources_ drivers.Env
       drivers.AllocDir drivers.StdoutPath drivers.StderrPath
       drivers.rawDriverConfig] in *.

Ltac setup_ok :=
  repeat (apply Forall_cons; split;
          [split; [cbn; unfold setupCalls; set_solver | reflexivity] |]);
  by apply Forall_nil.

(* ===================================================================== *)
(** ** MkAllocDir                                                         *)
(* ===================================================================== *)

Section MkAllocDir_facts.
Context `{Lib}.
Implicit Types (w : World) (t : ptr) (s : State) (c : drivers.TaskConfig).

(** What [MkAllocDir] does to the caller's task configuration. *)
Lemma MkAllocDir_effect w t logs s c r s' :
  heap s !! t = Some c →
  MkAllocDir w t logs s = (r, s') →
  ∃ c', heap s' = <[t := c']> (heap s) ∧
    drivers.ID c' = drivers.ID c ∧ drivers.Name c' = drivers.Name c ∧
    drivers.AllocID c' = drivers.AllocID c ∧
    drivers.Resources_ c' = drivers.Resources_ c ∧
    drivers.rawDriverConfig c' = drivers.rawDriverConfig c ∧
    (∀ cl, r = Ret (Some cl, None) →
       ∃ caps, h_Capabilities w = (Some caps, None) ∧
       let dir := (ioutil_TempDir w).1 in
       let taskEnv := taskEnvOf w dir (drivers.FSIsolation_ caps) c in
       let taskDir := NewTaskDir (allocdir.NewAllocDir dir) (drivers.Name c) in
       drivers.AllocDir c' = dir ∧
       drivers.Env c' = Some (match drivers.Env c with
                              | None => taskEnv
                              | Some env => env ∪ taskEnv
                              end) ∧
       if logs then
         if decide (GOOS w = "windows") then
           ∃ id, slice_to 8 (uuid_Generate w (uuids s)) = Some id ∧
             String.length id = 8%nat ∧
             drivers.StdoutPath c' =
               "//./pipe/" +:+ drivers.Name c +:+ "-" +:+ id +:+ ".stdout" ∧
             drivers.StderrPath c' =
               "//./pipe/" +:+ drivers.Name c +:+ "-" +:+ id +:+ ".stderr"
         else
           drivers.StdoutPath c' =
             filepath_Join [allocdir.LogDir taskDir;
                            "." +:+ drivers.Name c +:+ ".stdout.fifo"] ∧
           drivers.StderrPath c' =
             filepath_Join [allocdir.LogDir taskDir;
                            "." +:+ drivers.Name c +:+ ".stderr.fifo"]
       else
         drivers.StdoutPath c' = drivers.StdoutPath c ∧
         drivers.StderrPath c' = drivers.StderrPath c).
Proof.
  intros Hc. run_MkAllocDir w.
  all: intros [= <- <-]; cbn [heap].
  all: try (exists c; split; [by rewrite insert_id | done]).
  all: eexists; split; [reflexivity |].
  all: destruct c as [? ? ? ? [envc |] ? ? ? ?]; fields.
  all: repeat split; try done.
  all: intros cl [= <-]; eexists; split; [reflexivity |]; cbv zeta; cbn [fst].
  all: unfold taskEnvOf; fields; rewrite ?fillEnv_union.
  all: repeat split; try done.
  all: try (case_decide; [| done]).
  all: try (eexists; split; [reflexivity |];
            split; [by eapply slice_to_length | done]).
  all: try (case_decide; [done |]; done).
Qed.

(** The events of [MkAllocDir] are setup stages; all went through but the
    last one of a call that returns an error.  A call that returns no error
    returns the closure over the directory it created. *)
Lemma MkAllocDir_shape w t logs s c :
  heap s !! t = Some c →
  ∃ r s' c' setup,
    MkAllocDir w t logs s = (r, s') ∧
    heap s' !! t = Some c' ∧ drivers.ID c' = drivers.ID c ∧
    trace s' = trace s ++ setup ∧
    match r with
    | Ret (None, Some e) =>
        ∃ setup0 ev, setup = setup0 ++ [ev] ∧ Forall setupOk setup0 ∧ setupFailed e ev
    | Ret (Some cl, None) =>
        Forall setupOk setup ∧
        ∃ dir, EvTempDir dir None ∈ setup ∧
               cl = (if logs then cleanupLogs else cleanupDir) (allocdir.NewAllocDir dir)
    | Panic => Forall setupOk setup
    | _ => False
    end.
Proof.
  intros Hc. run_MkAllocDir w.
  all: eexists _, _, _, _; split; [reflexivity |]; cbn [heap trace].
  all: split; [first [exact Hc | apply lookup_insert_eq] |].
  all: split; [by destruct c as [? ? ? ? [envc |] ? ? ? ?] |].
  all: rewrite <- ?app_assoc; cbn [app]; split; [reflexivity |].
  all: lazymatch goal with
       | |- ∃ setup0 ev, ?l = _ ∧ _ =>
           exists (removelast l), (List.last l EvKill); cbn [removelast List.last];
           split; [reflexivity | split; [setup_ok |]];
           split; [cbn; unfold setupCalls; set_solver | reflexivity]
       | |- Forall _ _ ∧ _ =>
           split; [setup_ok | eexists; split; [| reflexivity]; set_solver]
       | |- Forall _ _ => setup_ok
       end.
Qed.
End MkAllocDir_facts.

(** The closure a successful call returns is over the directory that
    [ioutil.TempDir] made. *)
Lemma MkAllocDir_closure `{Lib} (w : World) t logs s cl s' :
  MkAllocDir w t logs s = (Ret (Some cl, None), s') →
  cl = (if logs then cleanupLogs else cleanupDir)
         (allocdir.NewAllocDir (ioutil_TempDir w).1).
Proof.
  destruct (heap s !! t) as [c |] eqn:Hc.
  - run_MkAllocDir w; by intros [= <- <-].
  - world w. unfold MkAllocDir. exec. destruct te; exec; [done |].
    by rewrite modify_dangling.
Qed.

(* ===================================================================== *)
(** ** The runs of the two programs                                      *)
(* ===================================================================== *)

Lemma newTaskConfig_busybox :
  newTaskConfig "" busyboxLongRunningCmd =
  Some {| docker.Image := "busybox:1.29.3"; docker.ImagePullTimeout := "5m";
          docker.LoadImage := "busybox.tar"; docker.Command := "nc";
          docker.Args := ["-l"; "-p"; "3000"; "127.0.0.1"] |}.
Proof. reflexivity. Qed.

(** With a handle the loop is still going after any number of rounds. *)
Lemma observe_handle h fuel s :
  observe (Some h) fuel s =
  (Spin, {| heap := heap s; trace := trace s ++ rounds h fuel; uuids := uuids s |}).
Proof.
  revert s. induction fuel as [| fuel IH]; intros s; cbn [observe rounds].
  - unfold spin. rewrite app_nil_r. by destruct s.
  - exec. rewrite IH. cbn [heap trace uuids]. by rewrite <- !app_assoc.
Qed.

(** Without one its first round panics. *)
Lemma observe_nil fuel s :
  observe None fuel s = (match fuel with O => Spin | S _ => Panic end, s).
Proof. by destruct fuel. Qed.

Lemma new_eq c s :
  new c s = (Ret (fresh (dom (heap s))),
             {| heap := <[fresh (dom (heap s)) := c]> (heap s);
                trace := trace s; uuids := uuids s |}).
Proof. reflexivity. Qed.

Section Runs.
Context `{Lib}.

Lemma main_harness_run w fuel :
  HarnessRun w fuel (fst (run (main_harness w fuel))) (snd (run (main_harness w fuel))).
Proof.
  unfold run, main_harness, dispenseDriver, SetConfig, newTask, StartTask, stopTask,
    EncodeConcreteDriverConfig, defer.
  rewrite newTaskConfig_busybox.
  destruct w as [goos env uuid cc [raw de] sc td ab cp tb ls [th se] st].
  exec. destruct cc as [e|]; exec; [apply run_client_fails |].
  destruct de as [e|]; exec; [apply run_dispense_fails |].
  destruct raw; exec; [| apply run_not_a_driver].
  destruct sc as [e|]; exec; [by apply run_config_fails |].
  rewrite new_eq. cbn [initState heap trace uuids].
  generalize (fresh (dom (∅ : gmap ptr drivers.TaskConfig))). intros p.
  match goal with
  | |- context [MkAllocDir ?w ?p ?l ?s] =>
      destruct (MkAllocDir_shape w p l s _ ltac:(apply lookup_insert_eq))
        as (r & s' & c' & setup & Heq & Hl & Hid & Htr & Hr);
      rewrite Heq; clear Heq
  end.
  cbn [trace] in Htr.
  destruct r as [[[cl |] [e |]] | | |]; cbn beta iota in Hr; try done; exec.
  - (* MkAllocDir returns its closure *)
    destruct Hr as (Hok & dir & Hdir & ->).
    destruct (encodeDriverConfig _); exec.
    all: destruct se as [e |]; exec.
    all: try (rewrite Htr, <- !app_assoc; cbn [app]; by apply run_start_fails).
    all: destruct th as [h |]; [rewrite observe_handle | rewrite observe_nil].
    all: exec.
    all: try (rewrite Htr, <- !app_assoc; cbn [app]; by apply run_observing).
    all: destruct fuel; exec.
    all: try (rewrite Htr, <- !app_assoc; cbn [app]; by apply run_not_observed).
    all: destruct st as [e |]; exec.
    all: try (rewrite Htr, <- !app_assoc; cbn [app]; by apply run_stop_fails).
    all: cbv [runCleanup lm_Stop allocDir_Destroy allocdir.AllocDir_
              allocdir.NewAllocDir]; exec.
    all: rewrite Htr, <- !app_assoc; cbn [app]; by apply run_torn_down.
  - (* MkAllocDir returns an error *)
    destruct Hr as (setup0 & ev & -> & Hok & Hfail).
    rewrite Htr, <- !app_assoc. cbn [app]. by apply run_setup_fails.
  - (* MkAllocDir panics *)
    rewrite Htr, <- !app_assoc. cbn [app]. by apply run_setup_panics.
Qed.

Lemma main_launcher_run w :
  LauncherRun (fst (run (main_launcher w))) (snd (run (main_launcher w))).
Proof.
  unfold run, main_launcher, dispenseDriver, SetConfig, newTask, StartTask,
    EncodeConcreteDriverConfig, defer.
  rewrite newTaskConfig_busybox.
  destruct w as [goos env uuid cc [raw de] sc td ab cp tb ls [th se] st].
  exec. destruct cc as [e|]; exec; [apply launch_client_fails |].
  destruct de as [e|]; exec; [apply launch_dispense_fails |].
  destruct raw; exec; [| apply launch_not_a_driver].
  destruct sc as [e|]; exec; [by apply launch_config_fails |].
  rewrite new_eq. cbn [initState heap trace uuids].
  generalize (fresh (dom (∅ : gmap ptr drivers.TaskConfig))). intros p.
  destruct (encodeDriverConfig _); exec.
  all: destruct se as [e |]; exec; [apply launch_start_fails | apply launch_started].
Qed.
End Runs.

(* ===================================================================== *)
(** ** Reasoning about traces                                            *)
(* ===================================================================== *)

(** Cutting a trace at one of its events. *)
Lemma cut_nil {A} (tr1 tr2 : list A) y : [] = tr1 ++ y :: tr2 → False.
Proof. by destruct tr1. Qed.

Lemma cut_cons {A} (a y : A) l tr1 tr2 :
  a :: l = tr1 ++ y :: tr2 →
  (tr1 = [] ∧ a = y ∧ l = tr2) ∨ ∃ tr1', tr1 = a :: tr1' ∧ l = tr1' ++ y :: tr2.
Proof. destruct tr1 as [| b tr1]; intros [= -> ->]; eauto. Qed.

Lemma cut_elem {A} (l tr1 tr2 : list A) y : l = tr1 ++ y :: tr2 → y ∈ l.
Proof.
  intros ->. apply elem_of_app. right. apply elem_of_cons. by left.
Qed.

Lemma cut_app {A} (seg l tr1 tr2 : list A) y :
  seg ++ l = tr1 ++ y :: tr2 → y ∉ seg →
  ∃ tr1', tr1 = seg ++ tr1' ∧ l = tr1' ++ y :: tr2.
Proof.
  revert tr1. induction seg as [| a seg IH]; intros tr1 Heq Hy.
  - by exists tr1.
  - apply not_elem_of_cons in Hy as [Hya Hy].
    apply cut_cons in Heq as [(-> & -> & _) | (tr1' & -> & Heq)]; [done |].
    destruct (IH tr1' Heq Hy) as (tr1'' & -> & ?). by exists tr1''.
Qed.

Lemma setupOk_elem setup e :
  Forall setupOk setup → e ∈ setup → call_of e ∈ setupCalls ∧ err_of e = None.
Proof. intros Hok He. by apply (proj1 (Forall_forall _ _) Hok). Qed.

Lemma rounds_elem h n e :
  e ∈ rounds h n → e = EvDump (drivers.State h) ∨ e = EvSleep 1.
Proof.
  induction n as [| n IH]; cbn [rounds]; intros He.
  - by apply elem_of_nil in He.
  - apply elem_of_cons in He as [-> | He]; [by left |].
    apply elem_of_cons in He as [-> | He]; [by right | auto].
Qed.

Lemma setup_not_started setup : Forall setupOk setup → existsb started setup = false.
Proof.
  induction 1 as [| e setup [Hc _] _ IH]; [done |]. cbn [existsb]. rewrite IH.
  destruct e; try done. unfold setupCalls in Hc. cbn in Hc.
  repeat (apply elem_of_cons in Hc as [Hc | Hc]; [discriminate Hc |]).
  by apply elem_of_nil in Hc.
Qed.

Lemma rounds_not_started h n : existsb started (rounds h n) = false.
Proof. by induction n. Qed.

(** An event of a setup segment or of the loop is none of the others. *)
Ltac not_in_segment :=
  let Hin := fresh in
  intros Hin;
  first [ eapply setupOk_elem in Hin as [Hin _]; [| eassumption];
          cbn in Hin; unfold setupCalls in Hin;
          repeat (apply elem_of_cons in Hin as [Hin | Hin]; [discriminate Hin |]);
          by apply elem_of_nil in Hin
        | apply rounds_elem in Hin as [Hin | Hin]; discriminate Hin ].

Ltac cut_trace Heq :=
  repeat first
  [ by apply cut_nil in Heq
  | apply cut_elem in Heq; exfalso; revert Heq; not_in_segment
  | let tr := fresh "tr" in
    apply cut_app in Heq as (tr & -> & Heq); [| not_in_segment]
  | let tr := fresh "tr" in
    apply cut_cons in Heq as [(-> & Heq & <-) | (tr & -> & Heq)];
    [try discriminate Heq |] ].

Ltac segment_facts :=
  repeat match goal with
  | Hok : Forall setupOk ?setup, Hin : ?x ∈ ?setup |- _ =>
      let Hc := fresh "Hc" in let He := fresh "He" in
      destruct (setupOk_elem setup x Hok Hin) as [Hc He]; clear Hin;
      unfold setupCalls in Hc
  | Hin : ?x ∈ rounds _ _ |- _ => apply rounds_elem in Hin as [Hin | Hin]
  end.

(** Membership of a call or an event in a trace made of known events, setup
    segments and rounds of the loop. *)
Ltac trace_solver :=
  unfold calls, configured, setupFailure, setupFailed, setupCalls in *;
  cbn [app] in *; set_unfold; unfold not; intros;
  repeat first
    [ progress destruct_and?
    | progress destruct_or?
    | match goal with H : ∃ _, _ |- _ => destruct H end
    | progress simplify_eq/= ];
  segment_facts; cbn in *; set_unfold; destruct_or?;
  first [done | congruence | naive_solver].

(* ===================================================================== *)
(** ** The lifecycle of the harness                                      *)
(* ===================================================================== *)

Lemma setupFailed_not_started e ev : setupFailed e ev → started ev = false.
Proof.
  intros [Hc _]. destruct ev; try done. unfold setupCalls in Hc. cbn in Hc.
  repeat (apply elem_of_cons in Hc as [Hc | Hc]; [discriminate Hc |]).
  by apply elem_of_nil in Hc.
Qed.

Ltac started_solver :=
  unfold taskStarted, configured in *;
  repeat (rewrite ?existsb_app, ?setup_not_started, ?rounds_not_started in * by assumption;
          cbn [existsb started orb app] in *);
  repeat match goal with
         | Hf : setupFailed _ ?ev |- _ =>
             rewrite (setupFailed_not_started _ ev Hf) in *; clear Hf
         end;
  cbn [existsb started orb app] in *;
  first [done | congruence].

(** A call is in the trace when one of its events is. *)
Ltac has_call e :=
  apply (list_elem_of_fmap_2' call_of _ e); [| reflexivity];
  unfold configured; cbn [app];
  repeat first [ apply elem_of_cons; left; reflexivity
               | apply elem_of_cons; right
               | apply elem_of_app; right ].

Section Claims.
Context `{Lib}.
Implicit Types (w : World) (t : ptr) (s : State) (c : drivers.TaskConfig).

(** With a handle from [StartTask] no run, however long it is observed, has
    a [StopTask] in it. *)
Lemma handle_never_stops w fuel h :
  dClient_StartTask w = (Some h, None) →
  StopTaskCall ∉ calls (snd (run (main_harness w fuel))).
Proof.
  intros Hh. destruct (main_harness_run w fuel); try congruence; trace_solver.
Qed.

(** C3, as the code has it.  A call of [MkAllocDir] that returns an error
    returns no closure with it and has itself stopped no log monitor and
    destroyed no directory.  In a run of the harness in which a setup stage
    fails, [main] ends the process through [log.Fatal] with status 1: the log
    monitor is not stopped, the allocation directory is not destroyed, the
    session is not killed and the task is not started.  What the earlier
    stages created stays. *)
Theorem failed_setup_skips_cleanup w fuel :
  (∀ t logs s c cl e s',
     heap s !! t = Some c →
     MkAllocDir w t logs s = (Ret (cl, Some e), s') →
     cl = None ∧
     (LogmonStop ∉ calls (emitted (MkAllocDir w t logs) s)) ∧
     (AllocDirDestroy ∉ calls (emitted (MkAllocDir w t logs) s))) ∧
  (setupFailure (snd (run (main_harness w fuel))) →
   fst (run (main_harness w fuel)) = Exited 1 ∧
   (LogmonStop ∉ calls (snd (run (main_harness w fuel)))) ∧
   (AllocDirDestroy ∉ calls (snd (run (main_harness w fuel)))) ∧
   (Kill ∉ calls (snd (run (main_harness w fuel)))) ∧
   StartTaskCall ∉ calls (snd (run (main_harness w fuel)))).
Proof.
  split.
  - intros t logs s c cl e s' Hc Hrun.
    destruct (MkAllocDir_shape w t logs s c Hc)
      as (r & s'' & c' & setup & Heq & _ & _ & Htr & Hr).
    unfold emitted. rewrite Hrun in *. injection Heq as <- <-. cbn [snd].
    rewrite Htr, drop_app_length.
    destruct cl as [cl |]; [done |].
    destruct Hr as (setup0 & ev & -> & Hok & Hfail).
    split; [done |]. split; trace_solver.
  - destruct (main_harness_run w fuel); intros Hfail.
    1-4, 6-11: (exfalso; revert Hfail; trace_solver).
    split; [done |]. clear Hfail. repeat split; trace_solver.
Qed.

(** C4, as the code has it.  Once the task has started, a run that leaves
    the loop attempts [StopTask].  When [StopTask] returns no error the run
    goes on with the five-second sleep, the log monitor's Stop, the
    directory's Destroy and the session's Kill, in this order.  When it
    returns an error, [log.Fatal] ends the process with status 1 right
    there: no Stop, no Destroy and no Kill follow. *)
Theorem teardown_after_start w fuel :
  let st := fst (run (main_harness w fuel)) in
  let tr := snd (run (main_harness w fuel)) in
  (taskStarted tr → st ≠ Running → StopTaskCall ∈ calls tr) ∧
  (∀ id secs sig, EvStopTask id secs sig None ∈ tr →
     st = Exited 2 ∧
     ∃ tr0 dir, tr = tr0 ++ [EvStopTask id secs sig None; EvSleep 5; EvLogmonStop;
                             EvAllocDirDestroy dir; EvKill]) ∧
  (∀ id secs sig e, EvStopTask id secs sig (Some e) ∈ tr →
     st = Exited 1 ∧
     (∃ tr0, tr = tr0 ++ [EvStopTask id secs sig (Some e); EvFatal e]) ∧
     (LogmonStop ∉ calls tr) ∧ (AllocDirDestroy ∉ calls tr) ∧ Kill ∉ calls tr).
Proof.
  cbv zeta. destruct (main_harness_run w fuel); (split; [| split]).
  all: try (intros Hs Hst; first [done | exfalso; revert Hs; started_solver
                                 | has_call (EvStopTask (drivers.ID t) 1 "SIGINT" (Some e))
                                 | has_call (EvStopTask (drivers.ID t) 1 "SIGINT" None)]).
  all: try (intros id secs sig Hin; exfalso; revert Hin; trace_solver).
  all: try (intros id secs sig e' Hin; exfalso; revert Hin; trace_solver).
  - intros id secs sig e' Hin.
    assert (id = drivers.ID t ∧ secs = 1 ∧ sig = "SIGINT" ∧ e' = e) as (-> & -> & -> & ->)
      by (revert Hin; trace_solver).
    split; [done |]. split.
    + exists (configured ++ setup ++ [EvStartTask t None]).
      by rewrite <- !app_assoc.
    + clear Hin. repeat split; trace_solver.
  - intros id secs sig Hin.
    assert (id = drivers.ID t ∧ secs = 1 ∧ sig = "SIGINT") as (-> & -> & ->)
      by (revert Hin; trace_solver).
    split; [done |].
    exists (configured ++ setup ++ [EvStartTask t None]), dir.
    by rewrite <- !app_assoc.
Qed.

(** C5, as the code has it.  The loop has no exit and nothing cancels it:
    with the task started and a handle in hand the process is still in the
    loop after any number of rounds, and no [StopTask], log-monitor Stop,
    Destroy or Kill has run.  The process leaves the loop only when the
    handle is nil, by the panic of its first round. *)
Theorem observation_loop_never_yields w fuel :
  let st := fst (run (main_harness w fuel)) in
  let tr := snd (run (main_harness w fuel)) in
  taskStarted tr →
  (∀ h, fst (dClient_StartTask w) = Some h →
     st = Running ∧ (StopTaskCall ∉ calls tr) ∧ (LogmonStop ∉ calls tr) ∧
     (AllocDirDestroy ∉ calls tr) ∧ Kill ∉ calls tr) ∧
  (st ≠ Running → fst (dClient_StartTask w) = None).
Proof.
  cbv zeta. destruct (main_harness_run w fuel); intros Hs.
  all: try (exfalso; revert Hs; started_solver).
  all: (split; [intros h' Hh' | intros Hst]).
  all: try done.
  all: try match goal with
           | Hw : dClient_StartTask _ = _ |- _ => rewrite Hw in *; cbn [fst] in *
           end.
  all: try done.
  clear Hs Hh'. repeat split; trace_solver.
Qed.

(** C8.  In the plain launcher and in the harness alike, every [StartTask]
    of a run comes after a [SetConfig] of that run that returned no error,
    and a run in which [SetConfig] returned an error has no [StartTask]. *)
Theorem StartTask_after_SetConfig w fuel :
  configuredBeforeStart (snd (run (main_launcher w))) ∧
  configuredBeforeStart (snd (run (main_harness w fuel))).
Proof.
  split.
  - destruct (main_launcher_run w); split.
    all: try (intros tr1 t' err tr2 Heq; cut_trace Heq; set_solver).
    all: intros e' He'; trace_solver.
  - destruct (main_harness_run w fuel); unfold configured; cbn [app]; split.
    all: try (intros tr1 t' err tr2 Heq; cut_trace Heq; set_solver).
    all: intros e' He'; trace_solver.
Qed.

(** C6.  The closure [MkAllocDir] returns when logging is enabled, run from
    any state, calls the log monitor's Stop and then, after Stop has
    returned, the directory's Destroy, and nothing else.  In a run of the
    harness every Destroy has the log monitor's Stop as the call right
    before it. *)
Theorem cleanup_stops_logmon_before_destroy w :
  (∀ t s cl s',
     MkAllocDir w t true s = (Ret (Some cl, None), s') →
     ∀ s0, runCleanup cl s0 =
           (Ret (), {| heap := heap s0;
                       trace := trace s0 ++ [EvLogmonStop;
                                             EvAllocDirDestroy (ioutil_TempDir w).1];
                       uuids := uuids s0 |})) ∧
  (∀ fuel tr1 dir tr2,
     snd (run (main_harness w fuel)) = tr1 ++ EvAllocDirDestroy dir :: tr2 →
     ∃ tr0, tr1 = tr0 ++ [EvLogmonStop]).
Proof.
  split.
  - intros t s cl s' Hrun s0. apply MkAllocDir_closure in Hrun as ->.
    cbv [runCleanup lm_Stop allocDir_Destroy allocdir.AllocDir_ allocdir.NewAllocDir].
    exec. by rewrite <- app_assoc.
  - intros fuel. destruct (main_harness_run w fuel); intros tr1 dir' tr2 Heq.
    all: unfold configured in Heq; cbn [app] in Heq; cut_trace Heq.
    + exfalso. subst.
      match goal with Hf : setupFailed _ _ |- _ => destruct Hf as [Hc _] end.
      cbn in Hc. unfold setupCalls in Hc.
      repeat (apply elem_of_cons in Hc as [Hc | Hc]; [discriminate Hc |]).
      by apply elem_of_nil in Hc.
    + eexists (_ :: _ :: _ :: _ ++ [_; _; _]). cbn [app]. by rewrite <- app_assoc.
Qed.

(** C7.  When [MkAllocDir] returns without error, a caller whose [Env] was
    nil finds the whole built environment there; a caller who had set [Env]
    keeps every value it had set, and every key it had not set reads as in
    the built environment. *)
Theorem MkAllocDir_fills_missing_env w t logs s c cl :
  heap s !! t = Some c →
  fst (MkAllocDir w t logs s) = Ret (Some cl, None) →
  ∃ c' caps,
    heap (snd (MkAllocDir w t logs s)) !! t = Some c' ∧
    h_Capabilities w = (Some caps, None) ∧
    let taskEnv := taskEnvOf w (ioutil_TempDir w).1 (drivers.FSIsolation_ caps) c in
    match drivers.Env c with
    | None => drivers.Env c' = Some taskEnv
    | Some env =>
        ∃ env', drivers.Env c' = Some env' ∧
          (∀ k v, env !! k = Some v → env' !! k = Some v) ∧
          (∀ k, env !! k = None → env' !! k = taskEnv !! k)
    end.
Proof.
  intros Hc Hr.
  destruct (MkAllocDir w t logs s) as [r s'] eqn:Hrun. cbn [fst snd] in *. subst r.
  destruct (MkAllocDir_effect _ _ _ _ _ _ _ Hc Hrun) as (c' & Hh & _ & _ & _ & _ & _ & Hok).
  destruct (Hok cl eq_refl) as (caps & Hcaps & _ & Henv & _).
  exists c', caps. rewrite Hh, lookup_insert_eq. split; [done |]. split; [done |].
  cbv zeta. destruct (drivers.Env c) as [env |]; [| done].
  eexists. split; [done |]. split.
  - intros k v Hk. apply lookup_union_Some_raw. by left.
  - intros k Hk. apply lookup_union_r. done.
Qed.

(** C9.  [MkAllocDir] writes through the caller's pointer and to no other
    address.  [ID], [Name], [AllocID], [Resources] and the encoded driver
    configuration stay as they were, however the call ends.  When it returns
    without error, [AllocDir] is the new temporary directory, [Env] is
    filled from the built environment, and with logging enabled
    [StdoutPath] and [StderrPath] are the pipe paths with the first eight
    characters of a fresh uuid on Windows and the fifo paths joined to the
    task's log directory elsewhere; without logging they stay as they
    were. *)
Theorem MkAllocDir_mutates_task_config w t logs s c :
  heap s !! t = Some c →
  let r := fst (MkAllocDir w t logs s) in
  let s' := snd (MkAllocDir w t logs s) in
  ∃ c',
    heap s' !! t = Some c' ∧
    (∀ p, p ≠ t → heap s' !! p = heap s !! p) ∧
    drivers.ID c' = drivers.ID c ∧ drivers.Name c' = drivers.Name c ∧
    drivers.AllocID c' = drivers.AllocID c ∧
    drivers.Resources_ c' = drivers.Resources_ c ∧
    drivers.rawDriverConfig c' = drivers.rawDriverConfig c ∧
    (∀ cl, r = Ret (Some cl, None) →
       ∃ caps, h_Capabilities w = (Some caps, None) ∧
       let dir := (ioutil_TempDir w).1 in
       let taskEnv := taskEnvOf w dir (drivers.FSIsolation_ caps) c in
       let taskDir := NewTaskDir (allocdir.NewAllocDir dir) (drivers.Name c) in
       drivers.AllocDir c' = dir ∧
       drivers.Env c' = Some (match drivers.Env c with
                              | None => taskEnv
                              | Some env => env ∪ taskEnv
                              end) ∧
       if logs then
         if decide (GOOS w = "windows") then
           ∃ id, slice_to 8 (uuid_Generate w (uuids s)) = Some id ∧
             String.length id = 8%nat ∧
             drivers.StdoutPath c' =
               "//./pipe/" +:+ drivers.Name c +:+ "-" +:+ id +:+ ".stdout" ∧
             drivers.StderrPath c' =
               "//./pipe/" +:+ drivers.Name c +:+ "-" +:+ id +:+ ".stderr"
         else
           drivers.StdoutPath c' =
             filepath_Join [allocdir.LogDir taskDir;
                            "." +:+ drivers.Name c +:+ ".stdout.fifo"] ∧
           drivers.StderrPath c' =
             filepath_Join [allocdir.LogDir taskDir;
                            "." +:+ drivers.Name c +:+ ".stderr.fifo"]
       else
         drivers.StdoutPath c' = drivers.StdoutPath c ∧
         drivers.StderrPath c' = drivers.StderrPath c).
Proof.
  intros Hc. cbv zeta.
  destruct (MkAllocDir w t logs s) as [r s'] eqn:Hrun. cbn [fst snd].
  destruct (MkAllocDir_effect _ _ _ _ _ _ _ Hc Hrun)
    as (c' & Hh & Hid & Hname & Haid & Hres & Hraw & Hok).
  exists c'. rewrite Hh. split; [apply lookup_insert_eq |].
  split; [by intros p Hp; rewrite lookup_insert_ne |].
  repeat (split; [done |]). exact Hok.
Qed.

(** C10.  Whatever the world, the task, the flag and the state
    [MkAllocDir] is called with, the log monitor is started with
    [MaxFiles = 10], [MaxFileSizeMB = 10] and the file names
    [<Name>.stdout] and [<Name>.stderr]. *)
Theorem logmon_limits_are_fixed w t logs s c cfg err :
  heap s !! t = Some c →
  EvLogmonStart cfg err ∈ emitted (MkAllocDir w t logs) s →
  logmon.MaxFiles cfg = 10 ∧ logmon.MaxFileSizeMB cfg = 10 ∧
  logmon.StdoutLogFile cfg = drivers.Name c +:+ ".stdout" ∧
  logmon.StderrLogFile cfg = drivers.Name c +:+ ".stderr".
Proof.
  intros Hc. unfold emitted. run_MkAllocDir w.
  all: rewrite <- ?app_assoc, drop_app_length; cbn [app].
  all: intros Hin; set_unfold; destruct_or?; simplify_eq.
  all: destruct c as [? ? ? ? [envc |] ? ? ? ?]; fields; done.
Qed.
End Claims.

(* ===================================================================== *)
(** ** The sample runs                                                    *)
(* ===================================================================== *)

(** The run in which [Capabilities] fails. *)
Example caps_fail_run :
  run (@main_harness Sample.lib Sample.world_caps_fail 0) =
  (Exited 1,
   [EvClient None; EvDispense "driver" None; EvSetConfig None;
    EvTempDir "/tmp/nomad_driver_harness-1" None;
    EvAllocDirBuild "/tmp/nomad_driver_harness-1" None;
    EvCapabilities (Some "rpc error: unavailable");
    EvFatal "rpc error: unavailable"]).
Proof. vm_compute. reflexivity. Qed.

(** The run in which the log monitor does not start. *)
Example logmon_fail_calls :
  calls (snd (run (@main_harness Sample.lib Sample.world_logmon_fail 0))) =
  [Client; Dispense; SetConfigCall; TempDir; AllocDirBuild; Capabilities;
   TaskDirBuild; LogmonStart; Fatal].
Proof. vm_compute. reflexivity. Qed.

(** The teardown with a failing and with a succeeding [StopTask]. *)
Example stop_fails_run :
  (fst (run (@main_harness Sample.lib Sample.world_stop_fails 1)),
   calls (snd (run (@main_harness Sample.lib Sample.world_stop_fails 1)))) =
  (Exited 1,
   [Client; Dispense; SetConfigCall; TempDir; AllocDirBuild; Capabilities;
    TaskDirBuild; LogmonStart; StartTaskCall; StopTaskCall; Fatal]).
Proof. vm_compute. reflexivity. Qed.

Example stop_ok_run :
  (fst (run (@main_harness Sample.lib Sample.world_stop_ok 1)),
   calls (snd (run (@main_harness Sample.lib Sample.world_stop_ok 1)))) =
  (Exited 2,
   [Client; Dispense; SetConfigCall; TempDir; AllocDirBuild; Capabilities;
    TaskDirBuild; LogmonStart; StartTaskCall; StopTaskCall; Sleep; LogmonStop;
    AllocDirDestroy; Kill]).
Proof. vm_compute. reflexivity. Qed.

(** Three rounds of the loop on a running task. *)
Example running_run :
  (fst (run (@main_harness Sample.lib Sample.world_running 3)),
   calls (snd (run (@main_harness Sample.lib Sample.world_running 3)))) =
  (Running,
   [Client; Dispense; SetConfigCall; TempDir; AllocDirBuild; Capabilities;
    TaskDirBuild; LogmonStart; StartTaskCall; Dump; Sleep; Dump; Sleep; Dump;
    Sleep]).
Proof. vm_compute. reflexivity. Qed.

Example launcher_run :
  (fst (run (@main_launcher Sample.lib Sample.world_running)),
   calls (snd (run (@main_launcher Sample.lib Sample.world_running)))) =
  (Exited 0, [PrintVersion; Client; Dispense; SetConfigCall; StartTaskCall; Kill]).
Proof. vm_compute. reflexivity. Qed.

Example bad_config_run :
  run (@main_harness Sample.lib Sample.world_bad_config 1) =
  (Exited 1,
   [EvClient None; EvDispense "driver" None; EvSetConfig (Some "invalid config");
    EvFatal "invalid config"]).
Proof. vm_compute. reflexivity. Qed.

Ltac in_list :=
  repeat first [ apply elem_of_cons; left; reflexivity | apply elem_of_cons; right ].

Ltac not_in_list H :=
  repeat (apply elem_of_cons in H as [H | H]; [discriminate H |]);
  by apply elem_of_nil in H.

(** C3 does not hold as written: in the run in which [Capabilities] fails
    the temporary directory has been created and is never destroyed. *)
Lemma failed_setup_leaves_directory : ¬ failed_setup_is_cleaned_up.
Proof.
  intros Hclaim.
  specialize (Hclaim Sample.lib Sample.world_caps_fail 0%nat "/tmp/nomad_driver_harness-1").
  cbv zeta in Hclaim. rewrite caps_fail_run in Hclaim. cbn [snd] in Hclaim.
  assert (EvAllocDirDestroy "/tmp/nomad_driver_harness-1" ∈
          [EvClient None; EvDispense "driver" None; EvSetConfig None;
           EvTempDir "/tmp/nomad_driver_harness-1" None;
           EvAllocDirBuild "/tmp/nomad_driver_harness-1" None;
           EvCapabilities (Some "rpc error: unavailable");
           EvFatal "rpc error: unavailable"]) as Hin.
  { apply Hclaim; [| in_list].
    exists (EvCapabilities (Some "rpc error: unavailable")), "rpc error: unavailable".
    split; [in_list |]. split; [cbn; unfold setupCalls; in_list | reflexivity]. }
  not_in_list Hin.
Qed.

(** The run in which [Capabilities] fails ends with status 1 and without a
    Destroy. *)
Lemma failed_setup_skips_cleanup_witness :
  setupFailure (snd (run (@main_harness Sample.lib Sample.world_caps_fail 0))) ∧
  fst (run (@main_harness Sample.lib Sample.world_caps_fail 0)) = Exited 1 ∧
  (AllocDirDestroy ∉ calls (snd (run (@main_harness Sample.lib Sample.world_caps_fail 0)))).
Proof.
  assert (setupFailure (snd (run (@main_harness Sample.lib Sample.world_caps_fail 0))))
    as Hfail.
  { exists (EvCapabilities (Some "rpc error: unavailable")), "rpc error: unavailable".
    split; [vm_compute; in_list |].
    split; [cbn; unfold setupCalls; in_list | reflexivity]. }
  split; [exact Hfail |].
  destruct (proj2 (@failed_setup_skips_cleanup Sample.lib Sample.world_caps_fail 0) Hfail)
    as (Hst & _ & Hd & _).
  split; [exact Hst | exact Hd].
Defined.

(** C4 does not hold as written: in the run in which [StopTask] fails the
    log monitor is not stopped. *)
Lemma stop_failure_skips_cleanup : ¬ stop_failure_keeps_cleanup.
Proof.
  intros Hclaim. specialize (Hclaim Sample.lib Sample.world_stop_fails 1%nat).
  cbv zeta in Hclaim.
  pose proof stop_fails_run as Hrun. apply (f_equal snd) in Hrun. cbn [snd] in Hrun.
  rewrite Hrun in Hclaim.
  destruct Hclaim as (Hstop & _); [in_list |]. not_in_list Hstop.
Qed.

(** The teardown of a started task attempts [StopTask]. *)
Lemma teardown_after_start_witness :
  taskStarted (snd (run (@main_harness Sample.lib Sample.world_stop_ok 1))) ∧
  StopTaskCall ∈ calls (snd (run (@main_harness Sample.lib Sample.world_stop_ok 1))).
Proof.
  split; [vm_compute; reflexivity |].
  apply (@teardown_after_start Sample.lib Sample.world_stop_ok 1).
  - vm_compute. reflexivity.
  - vm_compute. discriminate.
Defined.

(** C5 does not hold as written: with a running task no number of rounds
    brings a [StopTask]. *)
Lemma loop_holds_up_teardown : ¬ loop_yields_to_teardown.
Proof.
  intros Hclaim.
  destruct (Hclaim Sample.lib Sample.world_running) as [fuel Hstop].
  - exists 0%nat. vm_compute. reflexivity.
  - by apply (@handle_never_stops Sample.lib Sample.world_running fuel Sample.handle) in Hstop.
Qed.

(** After three rounds the process is still in the loop. *)
Lemma observation_loop_never_yields_witness :
  taskStarted (snd (run (@main_harness Sample.lib Sample.world_running 3))) ∧
  fst (run (@main_harness Sample.lib Sample.world_running 3)) = Running ∧
  (StopTaskCall ∉ calls (snd (run (@main_harness Sample.lib Sample.world_running 3)))).
Proof.
  assert (taskStarted (snd (run (@main_harness Sample.lib Sample.world_running 3))))
    as Hs by (vm_compute; reflexivity).
  split; [exact Hs |].
  destruct (@observation_loop_never_yields Sample.lib Sample.world_running 3 Hs)
    as [Hloop _].
  destruct (Hloop Sample.handle eq_refl) as (Hst & Hstop & _).
  split; [exact Hst | exact Hstop].
Defined.

(** The host path without isolation, the container path under chroot. *)
Lemma SetEnvvars_task_paths_witness :
  taskenv.allocDir
    (@SetEnvvars Sample.lib Sample.environ Sample.builder drivers.FSIsolationNone
       Sample.taskDir Sample.conf) = "/tmp/h/alloc" ∧
  taskenv.allocDir
    (@SetEnvvars Sample.lib Sample.environ Sample.builder drivers.FSIsolationChroot
       Sample.taskDir Sample.conf) = "/alloc".
Proof.
  split.
  - apply (@SetEnvvars_task_paths Sample.lib Sample.environ Sample.builder
             drivers.FSIsolationNone Sample.taskDir Sample.conf). reflexivity.
  - apply (@SetEnvvars_task_paths Sample.lib Sample.environ Sample.builder
             drivers.FSIsolationChroot Sample.taskDir Sample.conf). discriminate.
Defined.


(** The closure of a call on Linux stops the log monitor, then destroys the
    directory. *)
Lemma cleanup_stops_logmon_before_destroy_witness :
  trace (snd (runCleanup
                (cleanupLogs (allocdir.NewAllocDir "/tmp/nomad_driver_harness-1"))
                initState)) =
  [EvLogmonStop; EvAllocDirDestroy "/tmp/nomad_driver_harness-1"].
Proof.
  assert (@MkAllocDir Sample.lib Sample.world_running 7%nat true Sample.callerState =
          (Ret (Some (cleanupLogs (allocdir.NewAllocDir "/tmp/nomad_driver_harness-1")),
                None),
           snd (@MkAllocDir Sample.lib Sample.world_running 7%nat true
                  Sample.callerState))) as Hrun.
  { rewrite (surjective_pairing
               (@MkAllocDir Sample.lib Sample.world_running 7%nat true
                  Sample.callerState)) at 1.
    f_equal; vm_compute; reflexivity. }
  rewrite (proj1 (@cleanup_stops_logmon_before_destroy Sample.lib Sample.world_running)
             _ _ _ _ Hrun).
  reflexivity.
Defined.

(** A caller that had set NOMAD_TASK_DIR keeps its value. *)
Lemma MkAllocDir_fills_missing_env_witness :
  ∃ c' env',
    heap (snd (@MkAllocDir Sample.lib Sample.world_running 7%nat true Sample.callerState))
      !! 7%nat = Some c' ∧
    drivers.Env c' = Some env' ∧
    env' !! "NOMAD_TASK_DIR" = Some "/mine".
Proof.
  destruct (@MkAllocDir_fills_missing_env Sample.lib Sample.world_running 7%nat true
              Sample.callerState Sample.callerTask
              (cleanupLogs (allocdir.NewAllocDir "/tmp/nomad_driver_harness-1")))
    as (c' & caps & Hc' & _ & Henv).
  - vm_compute. reflexivity.
  - vm_compute. reflexivity.
  - cbv zeta in Henv. cbn [Sample.callerTask drivers.Env] in Henv.
    destruct Henv as (env' & Henv & Hkeep & _).
    exists c', env'. split; [exact Hc' |]. split; [exact Henv |].
    apply Hkeep. vm_compute. reflexivity.
Defined.

(** A run in which [SetConfig] fails starts no task. *)
Lemma StartTask_after_SetConfig_witness :
  StartTaskCall ∉ calls (snd (run (@main_harness Sample.lib Sample.world_bad_config 1))).
Proof.
  apply (proj2 (proj2 (@StartTask_after_SetConfig Sample.lib Sample.world_bad_config 1))
           "invalid config").
  rewrite bad_config_run. cbn [snd]. in_list.
Defined.

(** On Windows the sink carries the first eight characters of the uuid. *)
Lemma MkAllocDir_mutates_task_config_witness :
  ∃ c', heap (snd (@MkAllocDir Sample.lib Sample.world_windows 7%nat true Sample.callerState)) !! 7%nat
        = Some c' ∧
    drivers.ID c' = "id-1" ∧ drivers.Name c' = "web" ∧
    drivers.AllocDir c' = "/tmp/nomad_driver_harness-1" ∧
    drivers.StdoutPath c' = "//./pipe/web-0b7ad2c1.stdout".
Proof.
  destruct (@MkAllocDir_mutates_task_config Sample.lib Sample.world_windows 7%nat true
              Sample.callerState Sample.callerTask)
    as (c' & Hc' & _ & Hid & Hname & _ & _ & _ & Hok).
  - vm_compute. reflexivity.
  - destruct (Hok (cleanupLogs (allocdir.NewAllocDir "/tmp/nomad_driver_harness-1")))
      as (caps & _ & Hdir & _ & Hpaths).
    + vm_compute. reflexivity.
    + exists c'. split; [exact Hc' |]. split; [exact Hid |]. split; [exact Hname |].
      split; [exact Hdir |].
      destruct (decide (GOOS Sample.world_windows = "windows")) as [_ | Hne]; [| by destruct Hne].
      destruct Hpaths as (id & Hid8 & _ & Hout & _).
      rewrite Hout. vm_compute in Hid8. injection Hid8 as <-. reflexivity.
Defined.

(** The log monitor of the sample task is started with ten files. *)
Lemma logmon_limits_are_fixed_witness :
  let cfg :=
    {| logmon.LogDir := "/tmp/nomad_driver_harness-1/alloc/logs";
       logmon.StdoutLogFile := "web.stdout";
       logmon.StderrLogFile := "web.stderr";
       logmon.StdoutFifo := "/tmp/nomad_driver_harness-1/alloc/logs/.web.stdout.fifo";
       logmon.StderrFifo := "/tmp/nomad_driver_harness-1/alloc/logs/.web.stderr.fifo";
       logmon.MaxFiles := 10;
       logmon.MaxFileSizeMB := 10 |} in
  EvLogmonStart cfg None ∈
    emitted (@MkAllocDir Sample.lib Sample.world_running 7%nat true) Sample.callerState ∧
  logmon.MaxFiles cfg = 10.
Proof.
  cbv zeta.
  match goal with |- ?P ∧ _ => assert P as Hin by (vm_compute; in_list) end.
  split; [exact Hin |].
  apply (@logmon_limits_are_fixed Sample.lib Sample.world_running 7%nat true Sample.callerState
           Sample.callerTask _ None eq_refl Hin).
Defined.

(* ===================================================================== *)
(** ** More of the code: configuration, stages, exits                    *)
(* ===================================================================== *)

(** Two facts on strings that the library leaves out. *)
Lemma string_length_app (s1 s2 : string) :
  String.length (s1 +:+ s2) = (String.length s1 + String.length s2)%nat.
Proof. induction s1 as [| a s1 IH]; simpl; [done | by f_equal]. Qed.

Lemma string_app_inj_r (s s1 s2 : string) : s1 +:+ s = s2 +:+ s → s1 = s2.
Proof.
  revert s2. induction s1 as [| a s1 IH]; intros [| b s2] Heq.
  - done.
  - apply (f_equal String.length) in Heq.
    change (String b s2 +:+ s) with (String b (s2 +:+ s)) in Heq.
    change ("" +:+ s) with s in Heq. simpl in Heq.
    rewrite string_length_app in Heq. lia.
  - apply (f_equal String.length) in Heq.
    change (String a s1 +:+ s) with (String a (s1 +:+ s)) in Heq.
    change ("" +:+ s) with s in Heq. simpl in Heq.
    rewrite string_length_app in Heq. lia.
  - injection Heq as -> Heq. f_equal. by apply IH.
Qed.

(** X1.  [newTaskConfig] panics exactly on the empty command.  Otherwise the
    command is split without loss: [Command] is its first word and [Args]
    the rest, whatever the variant, and the pull timeout is five minutes. *)
Theorem newTaskConfig_command variant command :
  (newTaskConfig variant command = None ↔ command = []) ∧
  (∀ c, newTaskConfig variant command = Some c →
        docker.Command c :: docker.Args c = command ∧
        docker.ImagePullTimeout c = "5m").
Proof.
  unfold newTaskConfig. case_decide; destruct command as [| c0 cs]; cbn.
  all: split; [split; intros; done |]; intros c Hc; by simplify_eq.
Qed.

(** X2.  The empty variant gives the plain busybox image and archive, any
    other variant its name appended to both; two configurations have the
    same image, or the same archive, only when they have the same variant. *)
Theorem newTaskConfig_image variant command c :
  newTaskConfig variant command = Some c →
  (variant = "" → docker.Image c = "busybox:1.29.3" ∧ docker.LoadImage c = "busybox.tar") ∧
  (variant ≠ "" →
     docker.Image c = "busybox:1.29.3-" +:+ variant ∧
     docker.LoadImage c = "busybox_" +:+ variant +:+ ".tar") ∧
  (∀ variant' command' c',
     newTaskConfig variant' command' = Some c' →
     (docker.Image c = docker.Image c' ↔ variant = variant') ∧
     (docker.LoadImage c = docker.LoadImage c' ↔ variant = variant')).
Proof.
  assert (∀ v cmd cfg, newTaskConfig v cmd = Some cfg →
            docker.Image cfg = (if decide (v ≠ "") then "busybox:1.29.3-" +:+ v
                                else "busybox:1.29.3") ∧
            docker.LoadImage cfg = (if decide (v ≠ "") then "busybox_" +:+ v +:+ ".tar"
                                    else "busybox.tar")) as Hshape.
  { intros v cmd cfg. unfold newTaskConfig.
    case_decide; destruct cmd; intros Hc; by simplify_eq. }
  intros Hc. destruct (Hshape _ _ _ Hc) as [Hi Hl]. split; [| split].
  - intros ->. by rewrite Hi, Hl.
  - intros Hv. rewrite Hi, Hl. by case_decide.
  - intros v' cmd' c' Hc'. destruct (Hshape _ _ _ Hc') as [Hi' Hl'].
    rewrite Hi, Hl, Hi', Hl'. clear.
    repeat case_decide; split; split; intros Heq; subst; try done.
    all: try (cbn in Heq; simplify_eq; done).
    all: try (destruct (decide (variant = "")); destruct (decide (variant' = "")); congruence).
    apply (String.app_inj "busybox_") in Heq. by apply (string_app_inj_r ".tar").
Qed.

(** X3.  [SayHello] never returns an error; its greeting is [hello, ]
    followed by the name, so the name can be read back from it and two
    names never get the same greeting. *)
Theorem SayHello_greets n :
  snd (A.SayHello n) = None ∧
  String.substring 0 7 (fst (A.SayHello n)) = "hello, " ∧
  String.substring 7 (String.length n) (fst (A.SayHello n)) = n ∧
  (∀ m, fst (A.SayHello n) = fst (A.SayHello m) → n = m).
Proof.
  unfold A.SayHello. cbn [fst snd]. split; [done |]. split; [| split].
  - by destruct n.
  - cbn. induction n as [| a n IH]; simpl; [done | by f_equal].
  - intros m Heq. by apply (String.app_inj "hello, ") in Heq.
Qed.

Section SetEnvvars_more.
Context `{Lib}.

(** X4.  In every isolation mode [SetEnvvars] records the four real paths
    of the task directory as the client paths, and leaves the node, the
    allocation, the task and the region of the builder alone. *)
Theorem SetEnvvars_records_host_paths environ b fsi taskDir conf :
  let b' := SetEnvvars environ b fsi taskDir conf in
  taskenv.clientTaskRoot b' = allocdir.Dir taskDir ∧
  taskenv.clientSharedAllocDir b' = allocdir.SharedAllocDir taskDir ∧
  taskenv.clientTaskLocalDir b' = allocdir.LocalDir taskDir ∧
  taskenv.clientTaskSecretsDir b' = allocdir.SecretsDir taskDir ∧
  taskenv.node b' = taskenv.node b ∧ taskenv.alloc b' = taskenv.alloc b ∧
  taskenv.task b' = taskenv.task b ∧ taskenv.region b' = taskenv.region b.
Proof. unfold SetEnvvars. destruct fsi; case_decide; done. Qed.

(** X5.  A second [SetEnvvars] on the same builder wipes out the first when
    its mode is not image.  When its mode is image it sets the container
    paths but keeps the host variables the first call inherited.  Calling it
    again with the same arguments changes nothing. *)
Theorem SetEnvvars_last_call_wins environ1 environ2 b fsi1 fsi2 td1 td2 conf1 conf2 :
  let b1 := SetEnvvars environ1 b fsi1 td1 conf1 in
  let b2 := SetEnvvars environ2 b1 fsi2 td2 conf2 in
  (fsi2 ≠ drivers.FSIsolationImage → b2 = SetEnvvars environ2 b fsi2 td2 conf2) ∧
  (fsi2 = drivers.FSIsolationImage →
     taskenv.hostEnv b2 = taskenv.hostEnv b1 ∧
     taskenv.allocDir b2 = SharedAllocContainerPath ∧
     taskenv.localDir b2 = TaskLocalContainerPath ∧
     taskenv.secretsDir b2 = TaskSecretsContainerPath) ∧
  SetEnvvars environ1 b1 fsi1 td1 conf1 = b1.
Proof.
  cbv zeta. unfold SetEnvvars. split; [| split].
  - intros Hne. destruct fsi1, fsi2; repeat case_decide; done.
  - intros ->. destruct fsi1; repeat case_decide; done.
  - destruct fsi1; repeat case_decide; done.
Qed.
End SetEnvvars_more.

(** X6.  The loop that fills the caller's environment ends with the keys of
    both maps and no other; it copies the built environment into an empty
    map, leaves the map alone when nothing was built, and a second pass
    changes nothing. *)
Theorem fillEnv_composes (env taskEnv : gmap string string) :
  dom (fillEnv env taskEnv) = dom env ∪ dom taskEnv ∧
  fillEnv ∅ taskEnv = taskEnv ∧
  fillEnv env ∅ = env ∧
  fillEnv (fillEnv env taskEnv) taskEnv = fillEnv env taskEnv.
Proof.
  rewrite !fillEnv_union. split; [| split; [| split]].
  - apply dom_union_L.
  - apply (left_id_L ∅ (∪)).
  - apply (right_id_L ∅ (∪)).
  - rewrite <- (assoc_L (∪)). by rewrite (idemp_L (∪)).
Qed.

Section MkAllocDir_stages.
Context `{Lib}.
Implicit Types (w : World) (t : ptr) (s : State) (c : drivers.TaskConfig).

(** A call through a pointer to no task. *)
Lemma MkAllocDir_dangling w t logs s :
  heap s !! t = None →
  MkAllocDir w t logs s =
  (match snd (ioutil_TempDir w) with
   | Some err => Ret (None, Some err)
   | None => Panic
   end,
   {| heap := heap s;
      trace := trace s ++ [EvTempDir (fst (ioutil_TempDir w)) (snd (ioutil_TempDir w))];
      uuids := uuids s |}).
Proof.
  intros Hc. world w. unfold MkAllocDir. exec. destruct te; exec; [done |].
  by rewrite modify_dangling.
Qed.

(** X7.  Called with a pointer to no task, [MkAllocDir] still asks for the
    temporary directory first: it returns the error of [ioutil.TempDir] if
    there is one, and otherwise panics at [t.AllocDir = dir], with the
    directory made and nothing else done. *)
Theorem MkAllocDir_nil_task w t logs s :
  heap s !! t = None →
  MkAllocDir w t logs s =
  (match snd (ioutil_TempDir w) with
   | Some err => Ret (None, Some err)
   | None => Panic
   end,
   {| heap := heap s;
      trace := trace s ++ [EvTempDir (fst (ioutil_TempDir w)) (snd (ioutil_TempDir w))];
      uuids := uuids s |}).
Proof. intros Hc. by apply MkAllocDir_dangling. Qed.

(** X8.  [MkAllocDir] goes through its stages in one order, each at most
    once, and stops at the first that fails: its calls are a prefix of
    TempDir, Build, Capabilities, task-directory Build, log-monitor Start.
    A call without error made all of them (all but the last without
    logging); a call with an error made the failing one last. *)
Theorem MkAllocDir_stage_order w t logs s c :
  heap s !! t = Some c →
  calls (emitted (MkAllocDir w t logs) s) `prefix_of` setupCalls ∧
  (∀ cl, fst (MkAllocDir w t logs s) = Ret (Some cl, None) →
     calls (emitted (MkAllocDir w t logs) s) =
     if logs then setupCalls
     else [TempDir; AllocDirBuild; Capabilities; TaskDirBuild]) ∧
  (∀ e, fst (MkAllocDir w t logs s) = Ret (None, Some e) →
     ∃ evs ev, emitted (MkAllocDir w t logs) s = evs ++ [ev] ∧
               err_of ev = Some e ∧ Forall (λ ev, err_of ev = None) evs).
Proof.
  intros Hc. unfold emitted. run_MkAllocDir w.
  all: cbn [fst snd trace]; rewrite <- ?app_assoc, drop_app_length; cbn [app].
  all: split; [by eexists | split].
  all: try (intros cl [=]; done).
  all: try (intros e' [=]; done).
  all: intros e' [= <-].
  all: lazymatch goal with
       | |- ∃ evs ev, ?l = _ ∧ _ =>
           exists (removelast l), (List.last l EvKill); cbn [removelast List.last];
           split; [reflexivity | split; [reflexivity |]];
           repeat (apply Forall_cons; split; [reflexivity |]); by apply Forall_nil
       end.
Qed.
End MkAllocDir_stages.

Section MkAllocDir_logging.
Context `{Lib}.
Implicit Types (w : World) (t : ptr) (s : State) (c : drivers.TaskConfig).

(** X9.  With logging disabled [MkAllocDir] never starts a log monitor and
    draws no uuid, and the closure it returns only destroys the directory
    that [ioutil.TempDir] made. *)
Theorem MkAllocDir_without_logs w t s :
  (LogmonStart ∉ calls (emitted (MkAllocDir w t false) s)) ∧
  uuids (snd (MkAllocDir w t false s)) = uuids s ∧
  (∀ cl s', MkAllocDir w t false s = (Ret (Some cl, None), s') →
     ∀ s0, runCleanup cl s0 =
           (Ret (), {| heap := heap s0;
                       trace := trace s0 ++ [EvAllocDirDestroy (fst (ioutil_TempDir w))];
                       uuids := uuids s0 |})).
Proof.
  split; [| split].
  - destruct (heap s !! t) as [c |] eqn:Hc.
    + unfold emitted. run_MkAllocDir w.
      all: cbn [fst snd trace]; rewrite <- ?app_assoc, drop_app_length; cbn [app].
      all: unfold calls; cbn; intros Hin.
      all: repeat (apply elem_of_cons in Hin as [Hin | Hin]; [discriminate Hin |]).
      all: by apply elem_of_nil in Hin.
    + unfold emitted. rewrite MkAllocDir_dangling by done. cbn [snd trace].
      rewrite drop_app_length. unfold calls. cbn. intros Hin.
      apply elem_of_cons in Hin as [Hin | Hin]; [discriminate Hin |].
      by apply elem_of_nil in Hin.
  - destruct (heap s !! t) as [c |] eqn:Hc.
    + run_MkAllocDir w; done.
    + by rewrite MkAllocDir_dangling.
  - intros cl s' Hrun s0. apply MkAllocDir_closure in Hrun as ->.
    cbv [runCleanup allocDir_Destroy allocdir.AllocDir_ allocdir.NewAllocDir]. by exec.
Qed.

(** X10.  The task directory [MkAllocDir] builds is the one of the task's
    name under the new temporary directory, and it is built as a chroot
    exactly when the driver's capabilities say chroot. *)
Theorem MkAllocDir_builds_task_dir w t logs s c taskDir chroot err :
  heap s !! t = Some c →
  EvTaskDirBuild taskDir chroot err ∈ emitted (MkAllocDir w t logs) s →
  ∃ caps,
    h_Capabilities w = (Some caps, None) ∧
    taskDir = NewTaskDir (allocdir.NewAllocDir (fst (ioutil_TempDir w))) (drivers.Name c) ∧
    (chroot = true ↔ drivers.FSIsolation_ caps = drivers.FSIsolationChroot) ∧
    err = taskDir_Build w.
Proof.
  intros Hc. unfold emitted. run_MkAllocDir w.
  all: cbn [fst snd trace]; rewrite <- ?app_assoc, drop_app_length; cbn [app].
  all: intros Hin.
  all: repeat (apply elem_of_cons in Hin as [Hin | Hin]; [try discriminate Hin |]).
  all: try by apply elem_of_nil in Hin.
  all: injection Hin as -> -> ->.
  all: eexists; split; [reflexivity |].
  all: destruct c as [? ? ? ? [envc |] ? ? ? ?]; fields.
  all: split; [done |]; split; [| done].
  all: by rewrite bool_decide_eq_true.
Qed.

(** X11.  The log monitor is started only with logging enabled, on the log
    directory of the task directory, and its two sinks are the paths
    [MkAllocDir] leaves in [StdoutPath] and [StderrPath]; on Windows the two
    sinks differ. *)
Theorem MkAllocDir_sinks w t logs s c cfg err :
  heap s !! t = Some c →
  EvLogmonStart cfg err ∈ emitted (MkAllocDir w t logs) s →
  logs = true ∧
  logmon.LogDir cfg =
    allocdir.LogDir (NewTaskDir (allocdir.NewAllocDir (fst (ioutil_TempDir w)))
                       (drivers.Name c)) ∧
  (∃ c', heap (snd (MkAllocDir w t logs s)) !! t = Some c' ∧
         drivers.StdoutPath c' = logmon.StdoutFifo cfg ∧
         drivers.StderrPath c' = logmon.StderrFifo cfg) ∧
  (GOOS w = "windows" → logmon.StdoutFifo cfg ≠ logmon.StderrFifo cfg).
Proof.
  intros Hc. unfold emitted. run_MkAllocDir w.
  all: cbn [fst snd trace heap]; rewrite <- ?app_assoc, drop_app_length; cbn [app].
  all: intros Hin.
  all: repeat (apply elem_of_cons in Hin as [Hin | Hin]; [try discriminate Hin |]).
  all: try by apply elem_of_nil in Hin.
  all: injection Hin as -> ->.
  all: destruct c as [? ? ? ? [envc |] ? ? ? ?]; fields.
  all: split; [done |]; split; [done |]; split;
         [eexists; split; [apply lookup_insert_eq | done] |].
  all: intros Hw; try done; cbn [logmon.StdoutFifo logmon.StderrFifo].
  all: intros Heq; repeat (apply String.app_inj in Heq); discriminate Heq.
Qed.
End MkAllocDir_logging.

(** The event of a failed setup stage is a setup call and no other. *)
(** The event of a failed setup stage is a setup call and no other. *)
Ltac failed_is_setup :=
  exfalso; subst;
  match goal with
  | Hf : setupFailed _ _ |- _ =>
      destruct Hf as [Hf _]; cbn in Hf; unfold setupCalls in Hf;
      repeat (apply elem_of_cons in Hf as [Hf | Hf]; [discriminate Hf |]);
      by apply elem_of_nil in Hf
  end.

Section Runs_status.
Context `{Lib}.

(** X12.  The harness never ends with status 0.  It ends with status 1
    exactly when [log.Fatal] was called and with status 2 exactly when the
    session was killed; a [log.Fatal] and a Kill are each the last call of
    their run. *)
Theorem harness_exit_status w fuel :
  let st := fst (run (main_harness w fuel)) in
  let tr := snd (run (main_harness w fuel)) in
  st ≠ Exited 0 ∧
  (st = Exited 1 ↔ Fatal ∈ calls tr) ∧
  (st = Exited 2 ↔ Kill ∈ calls tr) ∧
  (∀ tr1 e tr2, tr = tr1 ++ EvFatal e :: tr2 → tr2 = []) ∧
  (∀ tr1 tr2, tr = tr1 ++ EvKill :: tr2 → tr2 = []).
Proof.
  cbv zeta. destruct (main_harness_run w fuel).
  all: split; [done |].
  all: split; [split; [intros Hst; first [discriminate Hst | solve [has_call (EvFatal e)]]
                      | first [done | trace_solver]] |].
  all: split; [split; [intros Hst; first [discriminate Hst | solve [has_call EvKill]]
                      | first [done | trace_solver]] |].
  all: unfold configured; cbn [app].
  all: split; [intros tr1 e' tr2 Heq | intros tr1 tr2 Heq].
  all: cut_trace Heq; try done.
  all: failed_is_setup.
Qed.

(** X13.  The launcher ends with status 0 exactly when [StartTask] returned
    no error and with status 1 exactly when [log.Fatal] was called; the
    deferred Kill runs exactly in the runs without [log.Fatal], and both are
    the last call of their run. *)
Theorem launcher_exit_status w :
  let st := fst (run (main_launcher w)) in
  let tr := snd (run (main_launcher w)) in
  (st = Exited 0 ↔ taskStarted tr) ∧
  (st = Exited 1 ↔ Fatal ∈ calls tr) ∧
  (Kill ∈ calls tr ↔ Fatal ∉ calls tr) ∧
  (∀ tr1 e tr2, tr = tr1 ++ EvFatal e :: tr2 → tr2 = []) ∧
  (∀ tr1 tr2, tr = tr1 ++ EvKill :: tr2 → tr2 = []).
Proof.
  cbv zeta. destruct (main_launcher_run w).
  all: split; [unfold taskStarted; cbn; split; intros Hx; first [done | discriminate Hx] |].
  all: split; [split; [intros Hst; first [discriminate Hst | solve [has_call (EvFatal e)]]
                      | first [done | trace_solver]] |].
  all: split; [split; [first [trace_solver | intros _; trace_solver]
                      | first [intros _; solve [has_call EvKill]
                              | intros Hn; exfalso; apply Hn; solve [has_call (EvFatal e)]]] |].
  all: split; [intros tr1 e' tr2 Heq | intros tr1 tr2 Heq].
  all: cut_trace Heq; done.
Qed.

(** What follows a started task that has a handle. *)
Lemma loop_after_start w fuel h :
  dClient_StartTask w = (Some h, None) →
  ∀ tr1 t tr2,
    snd (run (main_harness w fuel)) = tr1 ++ EvStartTask t None :: tr2 →
    tr2 = rounds h fuel ∧ length tr2 = (2 * fuel)%nat ∧
    (Dump ∉ calls tr1) ∧ Sleep ∉ calls tr1.
Proof.
  intros Hh. destruct (main_harness_run w fuel); intros tr1 t' tr2 Heq.
  all: unfold configured in Heq; cbn [app] in Heq; cut_trace Heq; try congruence.
  all: try failed_is_setup.
  assert (h0 = h) as -> by congruence.
  split; [done |]. split.
  - clear. induction fuel as [| n IH]; [done |]. cbn [rounds length]. rewrite IH. lia.
  - rewrite app_nil_r. split; trace_solver.
Qed.

(** Where [StopTask] and [StartTask] are in a run. *)
Lemma StopTask_StartTask_cut w fuel :
  let tr := snd (run (main_harness w fuel)) in
  (∀ tr1 id secs sig err tr2,
     tr = tr1 ++ EvStopTask id secs sig err :: tr2 →
     secs = 1 ∧ sig = "SIGINT" ∧
     (∃ tr0 t, tr1 = tr0 ++ [EvStartTask t None] ∧ id = drivers.ID t) ∧
     (StopTaskCall ∉ calls tr1) ∧ StopTaskCall ∉ calls tr2) ∧
  (∀ tr1 t err tr2,
     tr = tr1 ++ EvStartTask t err :: tr2 →
     (StartTaskCall ∉ calls tr1) ∧ StartTaskCall ∉ calls tr2).
Proof.
  cbv zeta. destruct (main_harness_run w fuel); split.
  all: try (intros tr1 id secs sig err tr2 Heq).
  all: try (intros tr1 t' err tr2 Heq).
  all: unfold configured in Heq; cbn [app] in Heq; cut_trace Heq.
  all: try failed_is_setup.
  all: try (injection Heq as <- <- <- <-).
  all: try (split; [done |]; split; [done |]; split;
              [eexists (_ :: _ :: _ :: _), _; split; [cbn [app]; reflexivity | reflexivity] |]).
  all: try (split; trace_solver).
Qed.
End Runs_status.


Section Runs_task.
Context `{Lib}.

(** Where a Destroy is in a run. *)
Lemma Destroy_cut w fuel tr1 dir tr2 :
  snd (run (main_harness w fuel)) = tr1 ++ EvAllocDirDestroy dir :: tr2 →
  EvTempDir dir None ∈ tr1 ∧
  (AllocDirDestroy ∉ calls tr1) ∧ (AllocDirDestroy ∉ calls tr2).
Proof.
  destruct (main_harness_run w fuel); intros Heq.
  all: unfold configured in Heq; cbn [app] in Heq; cut_trace Heq.
  all: try failed_is_setup.
  injection Heq as <-. split; [| split; trace_solver].
  do 3 (apply elem_of_cons; right). apply elem_of_app. by left.
Qed.

(** X17.  The launcher starts the demo task as it was made, with the
    encoded driver configuration and nothing else: no allocation directory,
    no environment and no sinks. *)
Theorem launcher_starts_bare_task w t err :
  EvStartTask t err ∈ snd (run (main_launcher w)) →
  t = match encodeDriverConfig demoDriverConfig with
      | Some bytes => set_rawDriverConfig bytes (demoTask w)
      | None => demoTask w
      end ∧
  drivers.AllocDir t = "" ∧ drivers.Env t = None ∧
  drivers.StdoutPath t = "" ∧ drivers.StderrPath t = "" ∧
  err = snd (dClient_StartTask w).
Proof.
  unfold run, main_launcher, dispenseDriver, SetConfig, newTask, StartTask,
    EncodeConcreteDriverConfig, defer.
  rewrite newTaskConfig_busybox. fold demoDriverConfig.
  destruct w as [goos env uuid cc [raw de] sc td ab cp tb ls [th se] st].
  unfold demoTask. exec.
  destruct cc as [e|]; exec; [intros Hin; exfalso; revert Hin; trace_solver |].
  destruct de as [e|]; exec; [intros Hin; exfalso; revert Hin; trace_solver |].
  destruct raw; exec; [| intros Hin; exfalso; revert Hin; trace_solver].
  destruct sc as [e|]; exec; [intros Hin; exfalso; revert Hin; trace_solver |].
  rewrite new_eq. cbn [initState heap trace uuids].
  generalize (fresh (dom (∅ : gmap ptr drivers.TaskConfig))). intros p.
  destruct (encodeDriverConfig _); exec.
  all: destruct se as [e |]; exec.
  all: cbn [app]; intros Hin.
  all: repeat (apply elem_of_cons in Hin as [Hin | Hin]; [try discriminate Hin |]).
  all: try by apply elem_of_nil in Hin.
  all: by injection Hin as -> ->.
Qed.

(** A successful call with logging has started the log monitor on the sinks
    it wrote into the task configuration. *)
Lemma MkAllocDir_started_logmon w t s c cl s' :
  heap s !! t = Some c →
  MkAllocDir w t true s = (Ret (Some cl, None), s') →
  ∃ cfg c', EvLogmonStart cfg None ∈ emitted (MkAllocDir w t true) s ∧
            heap s' !! t = Some c' ∧
            logmon.StdoutFifo cfg = drivers.StdoutPath c' ∧
            logmon.StderrFifo cfg = drivers.StderrPath c'.
Proof.
  intros Hc. unfold emitted. run_MkAllocDir w.
  all: intros [= <- <-].
  all: cbn [fst snd trace heap]; rewrite <- ?app_assoc, drop_app_length; cbn [app].
  all: eexists _, _; split; [do 4 (apply elem_of_cons; right); apply elem_of_cons; by left |].
  all: split; [apply lookup_insert_eq |].
  all: by destruct c as [? ? ? ? [envc |] ? ? ? ?].
Qed.

(** Where in a trace a [StartTask] can be. *)
Ltac find_start Hin :=
  repeat first
  [ by apply elem_of_nil in Hin
  | apply elem_of_cons in Hin as [Hin | Hin]; [try discriminate Hin |]
  | apply elem_of_app in Hin as [Hin | Hin]; [try (exfalso; revert Hin; not_in_segment) |]
  | exfalso; revert Hin; not_in_segment ].

(** The task the harness hands to [StartTask]. *)
Lemma started_task_cut w fuel tr1 t err tr2 :
  snd (run (main_harness w fuel)) = tr1 ++ EvStartTask t err :: tr2 →
  drivers.ID t = uuid_Generate w 0 ∧ drivers.AllocID t = uuid_Generate w 1 ∧
  drivers.Name t = "nc-demo" ∧ drivers.Resources_ t = Some basicResources ∧
  drivers.AllocDir t = fst (ioutil_TempDir w) ∧
  (∃ caps, h_Capabilities w = (Some caps, None) ∧
     drivers.Env t =
       Some (taskEnvOf w (fst (ioutil_TempDir w)) (drivers.FSIsolation_ caps)
               (demoTask w))) ∧
  drivers.rawDriverConfig t = default [] (encodeDriverConfig demoDriverConfig) ∧
  (∃ cfg, EvLogmonStart cfg None ∈ tr1 ∧
          logmon.StdoutFifo cfg = drivers.StdoutPath t ∧
          logmon.StderrFifo cfg = drivers.StderrPath t) ∧
  err = snd (dClient_StartTask w).
Proof.
  unfold run, main_harness, dispenseDriver, SetConfig, newTask, StartTask, stopTask,
    EncodeConcreteDriverConfig, defer.
  rewrite newTaskConfig_busybox. fold demoDriverConfig.
  destruct w as [goos env uuid cc [raw de] sc td ab cp tb ls [th se] st].
  exec. destruct cc as [e|]; exec; [intros Heq; cut_trace Heq |].
  destruct de as [e|]; exec; [intros Heq; cut_trace Heq |].
  destruct raw; exec; [| intros Heq; cut_trace Heq].
  destruct sc as [e|]; exec; [intros Heq; cut_trace Heq |].
  rewrite new_eq. cbn [initState heap trace uuids].
  generalize (fresh (dom (∅ : gmap ptr drivers.TaskConfig))). intros p.
  match goal with
  | |- context [MkAllocDir ?w ?p ?l ?s] =>
      assert (heap s !! p = Some (demoTask w)) as Hlk by apply lookup_insert_eq;
      destruct (MkAllocDir_shape w p l s _ Hlk)
        as (r & s' & c' & setup & Heq & Hl & _ & Htr & Hr);
      destruct (MkAllocDir_effect w p l s _ r s' Hlk Heq)
        as (c'' & Hheap & Hid & Hname & Haid & Hres & Hraw & Hok);
      pose proof (MkAllocDir_started_logmon w p s (demoTask w)) as Hlm;
      unfold emitted in Hlm; rewrite Heq in *; clear Heq
  end.
  cbn [trace snd] in Htr, Hlm. rewrite Htr, drop_app_length in Hlm.
  rewrite Hheap, lookup_insert_eq in Hl. injection Hl as <-.
  destruct r as [[[cl |] [e |]] | | |]; cbn beta iota in Hr; try done; exec.
  - (* MkAllocDir returns its closure *)
    destruct Hr as (Hok' & dir & Hdir & ->).
    destruct (Hok _ eq_refl) as (caps & Hcaps & Hadir & Henv & _).
    destruct (Hlm _ _ Hlk eq_refl) as (cfg & c1 & Hcfg & Hc1 & Hout & Herr).
    rewrite Hheap, lookup_insert_eq in Hc1. injection Hc1 as <-.
    assert (Hl : heap s' !! p = Some c'') by (rewrite Hheap; apply lookup_insert_eq).
    cbv zeta in Hadir, Henv. unfold demoTask in *. fields.
    cbn [ioutil_TempDir uuid_Generate h_Capabilities fst snd dClient_StartTask] in *.
    destruct (encodeDriverConfig demoDriverConfig); exec.
    all: destruct se as [e |]; exec.
    all: try (destruct th as [h |]; [rewrite observe_handle | rewrite observe_nil]; exec).
    all: try (destruct fuel; exec).
    all: try (destruct st as [e |]; exec).
    all: try (cbv [runCleanup lm_Stop allocDir_Destroy allocdir.AllocDir_
                   allocdir.NewAllocDir]; exec).
    all: rewrite Htr, <- ?app_assoc; cbn [app]; intros Heq; cut_trace Heq.
    all: injection Heq as <- <-; fields.
    all: repeat (split; [first [done | by eexists] |]); try done.
    all: split; [| done].
    all: exists cfg; split; [| done].
    all: do 3 (apply elem_of_cons; right); apply elem_of_app; by left.
  - (* MkAllocDir returns an error *)
    destruct Hr as (setup0 & ev & -> & Hok' & Hfail).
    rewrite Htr, <- !app_assoc. cbn [app]. intros Heq. cut_trace Heq.
    failed_is_setup.
  - (* MkAllocDir panics *)
    rewrite Htr, <- !app_assoc. cbn [app]. intros Heq. cut_trace Heq.
Qed.

(** A call of a trace is the call of one of its events. *)
Lemma call_split (tr : list Event) (c : Call) :
  c ∈ calls tr → ∃ tr1 e tr2, tr = tr1 ++ e :: tr2 ∧ call_of e = c.
Proof.
  intros Hin. apply list_elem_of_fmap_1 in Hin as (e & -> & Hin).
  apply list_elem_of_split in Hin as (tr1 & tr2 & ->). by exists tr1, e, tr2.
Qed.

(** X14.  Once the task is started with a handle, everything after
    [StartTask] is the loop: two calls a round, a dump of the state the
    handle had when [StartTask] returned and a sleep of one second.  No
    dump and no sleep comes before. *)
Theorem observation_dumps_first_state w fuel h :
  dClient_StartTask w = (Some h, None) →
  taskStarted (snd (run (main_harness w fuel))) →
  ∃ tr1 t,
    snd (run (main_harness w fuel)) = tr1 ++ EvStartTask t None :: rounds h fuel ∧
    length (rounds h fuel) = (2 * fuel)%nat ∧
    (Dump ∉ calls tr1) ∧ (Sleep ∉ calls tr1).
Proof.
  intros Hh Hs. apply existsb_exists in Hs as (e & Hin & He).
  destruct e as [| | | | | | | | | | | | t [err |] | | | |]; try discriminate He.
  apply list_elem_of_In, list_elem_of_split in Hin as (tr1 & tr2 & Heq).
  destruct (loop_after_start w fuel h Hh tr1 t tr2 Heq) as (-> & Hlen & Hd & Hsl).
  by exists tr1, t.
Qed.

(** X15.  In a run with a [StopTask], it is the call right after the one
    [StartTask] of the run, which returned no error, and it asks to stop the
    task of that ID with SIGINT and a timeout of one second; the run has no
    other [StopTask] and no other [StartTask]. *)
Theorem StopTask_follows_StartTask w fuel :
  StopTaskCall ∈ calls (snd (run (main_harness w fuel))) →
  ∃ tr0 t err tr2,
    snd (run (main_harness w fuel)) =
      tr0 ++ EvStartTask t None :: EvStopTask (drivers.ID t) 1 "SIGINT" err :: tr2 ∧
    (StopTaskCall ∉ calls tr0) ∧ (StopTaskCall ∉ calls tr2) ∧
    (StartTaskCall ∉ calls tr0) ∧ (StartTaskCall ∉ calls tr2).
Proof.
  intros Hin. apply call_split in Hin as (tr1 & e & tr2 & Heq & He).
  destruct e; try discriminate He.
  destruct (StopTask_StartTask_cut w fuel) as [Hstop Hstart].
  destruct (Hstop _ _ _ _ _ _ Heq) as (-> & -> & (tr0 & t & -> & ->) & Hn1 & Hn2).
  rewrite <- app_assoc in Heq. cbn [app] in Heq.
  destruct (Hstart _ _ _ _ Heq) as (Hs1 & Hs2).
  exists tr0, t, err, tr2. split; [done |].
  unfold calls in *. rewrite fmap_app in Hn1. cbn in Hs2, Hn1.
  rewrite elem_of_app in Hn1. rewrite !elem_of_cons in Hs2. tauto.
Qed.

(** X16.  A run destroys at most one directory, and it is one that
    [ioutil.TempDir] made earlier in that run. *)
Theorem Destroy_only_what_TempDir_made w fuel :
  AllocDirDestroy ∈ calls (snd (run (main_harness w fuel))) →
  ∃ tr1 dir tr2,
    snd (run (main_harness w fuel)) = tr1 ++ EvAllocDirDestroy dir :: tr2 ∧
    EvTempDir dir None ∈ tr1 ∧
    (AllocDirDestroy ∉ calls tr1) ∧ (AllocDirDestroy ∉ calls tr2).
Proof.
  intros Hin. apply call_split in Hin as (tr1 & e & tr2 & Heq & He).
  destruct e; try discriminate He.
  exists tr1, dir, tr2. split; [done |]. by apply (Destroy_cut w fuel).
Qed.

(** X18.  The harness calls [StartTask] at most once, and then with the
    demo task as [MkAllocDir] left it: the two uuids, the name and the
    resources it was made with, the new temporary directory, the built
    environment, the encoded driver configuration, and the sinks of a log
    monitor that was started without error before. *)
Theorem harness_starts_built_task w fuel :
  StartTaskCall ∈ calls (snd (run (main_harness w fuel))) →
  ∃ tr1 t tr2,
    snd (run (main_harness w fuel)) =
      tr1 ++ EvStartTask t (snd (dClient_StartTask w)) :: tr2 ∧
    (StartTaskCall ∉ calls tr1) ∧ (StartTaskCall ∉ calls tr2) ∧
    drivers.ID t = uuid_Generate w 0 ∧ drivers.AllocID t = uuid_Generate w 1 ∧
    drivers.Name t = "nc-demo" ∧ drivers.Resources_ t = Some basicResources ∧
    drivers.AllocDir t = fst (ioutil_TempDir w) ∧
    (∃ caps, h_Capabilities w = (Some caps, None) ∧
       drivers.Env t =
         Some (taskEnvOf w (fst (ioutil_TempDir w)) (drivers.FSIsolation_ caps)
                 (demoTask w))) ∧
    drivers.rawDriverConfig t = default [] (encodeDriverConfig demoDriverConfig) ∧
    (∃ cfg, EvLogmonStart cfg None ∈ tr1 ∧
            logmon.StdoutFifo cfg = drivers.StdoutPath t ∧
            logmon.StderrFifo cfg = drivers.StderrPath t).
Proof.
  intros Hin. apply call_split in Hin as (tr1 & e & tr2 & Heq & He).
  destruct e; try discriminate He.
  destruct (started_task_cut w fuel _ _ _ _ Heq)
    as (Hid & Haid & Hname & Hres & Hdir & Henv & Hraw & Hlm & ->).
  destruct (proj2 (StopTask_StartTask_cut w fuel) _ _ _ _ Heq) as (Hs1 & Hs2).
  exists tr1, t, tr2. done.
Qed.
End Runs_task.

(* ===================================================================== *)
(** ** More sample runs                                                   *)
(* ===================================================================== *)

(** The musl variant. *)
Lemma newTaskConfig_image_witness :
  ∃ c, newTaskConfig "musl" busyboxLongRunningCmd = Some c ∧
       docker.Image c = "busybox:1.29.3-musl" ∧
       docker.LoadImage c = "busybox_musl.tar".
Proof.
  eexists. split; [reflexivity |].
  eapply (newTaskConfig_image "musl" busyboxLongRunningCmd); [reflexivity | discriminate].
Defined.

(** No task at address 0 of the empty store: the call panics. *)
Lemma MkAllocDir_nil_task_witness :
  fst (@MkAllocDir Sample.lib Sample.world_running 0%nat true initState) = Panic.
Proof.
  rewrite (@MkAllocDir_nil_task Sample.lib Sample.world_running 0%nat true initState).
  - reflexivity.
  - vm_compute. reflexivity.
Defined.

(** The four stages of a call without logging. *)
Lemma MkAllocDir_stage_order_witness :
  calls (emitted (@MkAllocDir Sample.lib Sample.world_running 7%nat false)
           Sample.callerState) =
  [TempDir; AllocDirBuild; Capabilities; TaskDirBuild].
Proof.
  apply (proj1 (proj2 (@MkAllocDir_stage_order Sample.lib Sample.world_running 7%nat
                         false Sample.callerState Sample.callerTask eq_refl))
           (cleanupDir (allocdir.NewAllocDir "/tmp/nomad_driver_harness-1"))).
  vm_compute. reflexivity.
Defined.

(** Under a driver that asks for a chroot the task directory is built as
    one. *)
Lemma MkAllocDir_builds_task_dir_witness :
  let taskDir :=
    Sample.taskDirOf (allocdir.NewAllocDir "/tmp/nomad_driver_harness-1") "web" in
  EvTaskDirBuild taskDir true None ∈
    emitted (@MkAllocDir Sample.lib Sample.world_chroot 7%nat true) Sample.callerState ∧
  ∃ caps, h_Capabilities Sample.world_chroot = (Some caps, None) ∧
          drivers.FSIsolation_ caps = drivers.FSIsolationChroot.
Proof.
  cbv zeta.
  match goal with |- ?P ∧ _ => assert P as Hin by (vm_compute; in_list) end.
  split; [exact Hin |].
  destruct (@MkAllocDir_builds_task_dir Sample.lib Sample.world_chroot 7%nat true
              Sample.callerState Sample.callerTask _ _ _ eq_refl Hin)
    as (caps & Hcaps & _ & Hchroot & _).
  exists caps. split; [exact Hcaps | by apply Hchroot].
Defined.

(** On Windows the log monitor reads the pipe the task writes. *)
Lemma MkAllocDir_sinks_witness :
  let cfg :=
    {| logmon.LogDir := "/tmp/nomad_driver_harness-1/alloc/logs";
       logmon.StdoutLogFile := "web.stdout";
       logmon.StderrLogFile := "web.stderr";
       logmon.StdoutFifo := "//./pipe/web-0b7ad2c1.stdout";
       logmon.StderrFifo := "//./pipe/web-0b7ad2c1.stderr";
       logmon.MaxFiles := 10;
       logmon.MaxFileSizeMB := 10 |} in
  EvLogmonStart cfg None ∈
    emitted (@MkAllocDir Sample.lib Sample.world_windows 7%nat true) Sample.callerState ∧
  ∃ c', heap (snd (@MkAllocDir Sample.lib Sample.world_windows 7%nat true
                     Sample.callerState)) !! 7%nat = Some c' ∧
        drivers.StdoutPath c' = "//./pipe/web-0b7ad2c1.stdout".
Proof.
  cbv zeta.
  match goal with |- ?P ∧ _ => assert P as Hin by (vm_compute; in_list) end.
  split; [exact Hin |].
  destruct (@MkAllocDir_sinks Sample.lib Sample.world_windows 7%nat true
              Sample.callerState Sample.callerTask _ _ eq_refl Hin)
    as (_ & _ & (c' & Hc' & Hout & _) & _).
  exists c'. split; [exact Hc' | exact Hout].
Defined.

(** Three rounds after the start. *)
Lemma observation_dumps_first_state_witness :
  ∃ tr1 t,
    snd (run (@main_harness Sample.lib Sample.world_running 3)) =
    tr1 ++ EvStartTask t None :: rounds Sample.handle 3.
Proof.
  destruct (@observation_dumps_first_state Sample.lib Sample.world_running 3
              Sample.handle eq_refl) as (tr1 & t & Heq & _).
  - vm_compute. reflexivity.
  - exists tr1, t. exact Heq.
Defined.

(** The teardown stops the task it started. *)
Lemma StopTask_follows_StartTask_witness :
  ∃ tr0 t err tr2,
    snd (run (@main_harness Sample.lib Sample.world_stop_ok 1)) =
    tr0 ++ EvStartTask t None :: EvStopTask (drivers.ID t) 1 "SIGINT" err :: tr2.
Proof.
  destruct (@StopTask_follows_StartTask Sample.lib Sample.world_stop_ok 1)
    as (tr0 & t & err & tr2 & Heq & _).
  - vm_compute. in_list.
  - exists tr0, t, err, tr2. exact Heq.
Defined.

(** The teardown destroys the temporary directory of the run. *)
Lemma Destroy_only_what_TempDir_made_witness :
  ∃ tr1 dir tr2,
    snd (run (@main_harness Sample.lib Sample.world_stop_ok 1)) =
      tr1 ++ EvAllocDirDestroy dir :: tr2 ∧
    EvTempDir dir None ∈ tr1.
Proof.
  destruct (@Destroy_only_what_TempDir_made Sample.lib Sample.world_stop_ok 1)
    as (tr1 & dir & tr2 & Heq & Hin & _).
  - vm_compute. in_list.
  - exists tr1, dir, tr2. exact (conj Heq Hin).
Defined.

(** The launcher's task has no directory and no environment. *)
Lemma launcher_starts_bare_task_witness :
  let t := set_rawDriverConfig [] (demoTask Sample.world_running) in
  EvStartTask t None ∈ snd (run (@main_launcher Sample.lib Sample.world_running)) ∧
  drivers.AllocDir t = "" ∧ drivers.Env t = None.
Proof.
  cbv zeta.
  match goal with |- ?P ∧ _ => assert P as Hin by (vm_compute; in_list) end.
  split; [exact Hin |].
  destruct (@launcher_starts_bare_task Sample.lib Sample.world_running _ _ Hin)
    as (_ & Hdir & Henv & _).
  split; [exact Hdir | exact Henv].
Defined.

(** The harness's task has the temporary directory. *)
Lemma harness_starts_built_task_witness :
  ∃ tr1 t tr2,
    snd (run (@main_harness Sample.lib Sample.world_running 0)) =
      tr1 ++ EvStartTask t None :: tr2 ∧
    drivers.AllocDir t = "/tmp/nomad_driver_harness-1" ∧
    drivers.Name t = "nc-demo".
Proof.
  destruct (@harness_starts_built_task Sample.lib Sample.world_running 0)
    as (tr1 & t & tr2 & Heq & _ & _ & _ & _ & Hname & _ & Hdir & _).
  - vm_compute. in_list.
  - exists tr1, t, tr2. exact (conj Heq (conj Hdir Hname)).
Defined.
